(** * DT-Request / DT-Response protocol: client.py and server.py

    A shallow embedding of the two programs of the repository, and the
    properties of their packet codec and of their exchange logic.

    Conventions.
    - A byte is a [Z] in [0, 256); a [bytes] / [bytearray] value is a list of
      them.  Every place where Python checks the range of a byte or of an
      integer being serialised is written out and fails with the exception
      Python raises.
    - A Python [str] is the list of its Unicode code points.
    - [sys.exit()] and uncaught exceptions are explicit results.
    - Sockets, [select] and the clock are inputs of the functions that use
      them; what a function does to a socket is recorded as a trace. *)

From Stdlib Require Import ZArith List Lia Bool String Ascii.
Import ListNotations.
Open Scope Z_scope.

(** ** The Python runtime the programs rely on *)

Module Py.

(** Exceptions the modelled fragment can raise. *)
Inductive Exc : Type :=
| OverflowError
| ValueError
| IndexError
| KeyError
| UnicodeEncodeError
| UnicodeDecodeError.

(** A computation that returns a value or raises. *)
Definition M (A : Type) : Type := (Exc + A)%type.

Definition ret {A} (a : A) : M A := inr a.
Definition raise {A} (e : Exc) : M A := inl e.
Definition bind {A B} (m : M A) (k : A -> M B) : M B :=
  match m with
  | inl e => inl e
  | inr a => k a
  end.

Abbreviation byte := Z (only parsing).
Abbreviation bytes := (list Z) (only parsing).
Abbreviation str := (list Z) (only parsing).

Definition is_byte (b : Z) : Prop := 0 <= b < 256.
Definition is_byteb (b : Z) : bool := (0 <=? b) && (b <? 256).

(** [len(x)] *)
Definition len {A} (l : list A) : Z := Z.of_nat (List.length l).

(** [x[i:j]] for literal bounds [0 <= i <= j]. *)
Definition slice {A} (l : list A) (i j : nat) : list A :=
  firstn (j - i) (skipn i l).

(** [x[i:]] *)
Definition slice_from {A} (l : list A) (i : nat) : list A := skipn i l.

(** [x[i]] on a [bytes] / [bytearray]. *)
Definition index (l : bytes) (i : nat) : M byte :=
  match nth_error l i with
  | Some b => ret b
  | None => raise IndexError
  end.

(** [bytearray(n)] *)
Definition bytearray (n : nat) : bytes := repeat 0 n.

(** [x[i:j] = v] on a [bytearray]: the slice is replaced by [v], whose
    items must be bytes. *)
Definition set_slice (l : bytes) (i j : nat) (v : list Z) : M bytes :=
  if forallb is_byteb v
  then ret (firstn i l ++ v ++ skipn (Nat.max i j) l)
  else raise ValueError.

(** [x[i:] = v] *)
Definition set_slice_from (l : bytes) (i : nat) (v : list Z) : M bytes :=
  if forallb is_byteb v
  then ret (firstn i l ++ v)
  else raise ValueError.

(** [x[i] = v] on a [bytearray]. *)
Definition set_index (l : bytes) (i : nat) (v : Z) : M bytes :=
  if is_byteb v
  then if (i <? List.length l)%nat
       then ret (firstn i l ++ v :: skipn (S i) l)
       else raise IndexError
  else raise ValueError.

(** [int.from_bytes(b, "big")] *)
Definition from_bytes_big (b : bytes) : Z :=
  fold_left (fun acc x => acc * 256 + x) b 0.

(** [v.to_bytes(2, "big")] *)
Definition to_bytes2_big (v : Z) : M bytes :=
  if (0 <=? v) && (v <? 65536)
  then ret [v / 256; v mod 256]
  else raise OverflowError.

(** Code points of an ASCII literal. *)
Definition lit (s : string) : str :=
  map (fun a => Z.of_N (N_of_ascii a)) (list_ascii_of_string s).

(** *** Decimal and hexadecimal rendering of integers *)

Fixpoint dec_digits (u : Decimal.uint) : str :=
  match u with
  | Decimal.Nil => []
  | Decimal.D0 u => 48 :: dec_digits u
  | Decimal.D1 u => 49 :: dec_digits u
  | Decimal.D2 u => 50 :: dec_digits u
  | Decimal.D3 u => 51 :: dec_digits u
  | Decimal.D4 u => 52 :: dec_digits u
  | Decimal.D5 u => 53 :: dec_digits u
  | Decimal.D6 u => 54 :: dec_digits u
  | Decimal.D7 u => 55 :: dec_digits u
  | Decimal.D8 u => 56 :: dec_digits u
  | Decimal.D9 u => 57 :: dec_digits u
  end.

Fixpoint hex_digits (u : Hexadecimal.uint) : str :=
  match u with
  | Hexadecimal.Nil => []
  | Hexadecimal.D0 u => 48 :: hex_digits u
  | Hexadecimal.D1 u => 49 :: hex_digits u
  | Hexadecimal.D2 u => 50 :: hex_digits u
  | Hexadecimal.D3 u => 51 :: hex_digits u
  | Hexadecimal.D4 u => 52 :: hex_digits u
  | Hexadecimal.D5 u => 53 :: hex_digits u
  | Hexadecimal.D6 u => 54 :: hex_digits u
  | Hexadecimal.D7 u => 55 :: hex_digits u
  | Hexadecimal.D8 u => 56 :: hex_digits u
  | Hexadecimal.D9 u => 57 :: hex_digits u
  | Hexadecimal.Da u => 97 :: hex_digits u
  | Hexadecimal.Db u => 98 :: hex_digits u
  | Hexadecimal.Dc u => 99 :: hex_digits u
  | Hexadecimal.Dd u => 100 :: hex_digits u
  | Hexadecimal.De u => 101 :: hex_digits u
  | Hexadecimal.Df u => 102 :: hex_digits u
  end.

(** Digits of [|z|], most significant first; ["0"] for zero. *)
Definition abs_digits (z : Z) : str :=
  match Z.to_int z with
  | Decimal.Pos u => dec_digits u
  | Decimal.Neg u => dec_digits u
  end.

Definition minus_sign : Z := 45.

(** [str(z)] *)
Definition str_of_int (z : Z) : str :=
  if z <? 0 then minus_sign :: abs_digits z else abs_digits z.

(** [hex(z)] *)
Definition hex (z : Z) : str :=
  let digits :=
    match Z.to_hex_int z with
    | Hexadecimal.Pos u => hex_digits u
    | Hexadecimal.Neg u => hex_digits u
    end in
  if z <? 0 then minus_sign :: lit "0x" ++ digits else lit "0x" ++ digits.

(** [format(z, "0<w>d")]: the sign, then zeros up to a total width of [w],
    then the digits. *)
Definition format_0d (w : nat) (z : Z) : str :=
  let d := abs_digits z in
  if z <? 0
  then minus_sign :: repeat 48 (w - 1 - List.length d) ++ d
  else repeat 48 (w - List.length d) ++ d.

(** *** [str.format] with positional fields

    The fragment of the format mini-language the programs use: literal
    text, [{i}] and [{i:0<w>d}].  Doubled braces do not occur in the
    programs' templates and are not modelled. *)

Inductive Val : Type :=
| VStr (s : str)
| VInt (z : Z).

Definition is_digit (c : Z) : bool := (48 <=? c) && (c <=? 57).

(** Value of a non-empty run of decimal digits. *)
Definition parse_nat (s : str) : option nat :=
  match s with
  | [] => None
  | _ =>
    if forallb is_digit s
    then Some (fold_left (fun acc c => (acc * 10 + Z.to_nat (c - 48))%nat) s 0%nat)
    else None
  end.

(** Splits [s] at its first colon. *)
Fixpoint split_colon (s : str) : str * option str :=
  match s with
  | [] => ([], None)
  | c :: r =>
    if c =? 58 then ([], Some r)
    else let '(a, b) := split_colon r in (c :: a, b)
  end.

(** A format spec of the shape [0<w>d]. *)
Definition parse_spec_0d (spec : str) : option nat :=
  match spec with
  | 48 :: r =>
    match rev_append r [] with
    | 100 :: w => parse_nat (rev_append w [])
    | _ => None
    end
  | _ => None
  end.

(** Renders the replacement field whose text (between the braces) is
    [field]. *)
Definition render_field (field : str) (args : list Val) : M str :=
  let '(name, spec) := split_colon field in
  match parse_nat name with
  | None => raise ValueError
  | Some i =>
    match nth_error args i with
    | None => raise IndexError
    | Some v =>
      match spec, v with
      | None, VStr s => ret s
      | None, VInt z => ret (str_of_int z)
      | Some sp, VInt z =>
        match parse_spec_0d sp with
        | Some w => ret (format_0d w z)
        | None => raise ValueError
        end
      | Some _, VStr _ => raise ValueError
      end
    end
  end.

(** [field] is [None] outside a replacement field, and the reversed text
    read so far inside one. *)
Fixpoint format_scan (tmpl : str) (field : option str) (args : list Val)
  : M str :=
  match tmpl with
  | [] =>
    match field with
    | None => ret []
    | Some _ => raise ValueError
    end
  | c :: rest =>
    match field with
    | None =>
      if c =? 123 then format_scan rest (Some []) args
      else if c =? 125 then raise ValueError
      else bind (format_scan rest None args) (fun r => ret (c :: r))
    | Some f =>
      if c =? 125
      then bind (render_field (rev_append f []) args) (fun s =>
           bind (format_scan rest None args) (fun r => ret (s ++ r)))
      else format_scan rest (Some (c :: f)) args
    end
  end.

(** [tmpl.format(a0, a1, ...)] *)
Definition format (tmpl : str) (args : list Val) : M str :=
  format_scan tmpl None args.

(** *** UTF-8 *)

Definition is_surrogate (c : Z) : bool := (0xD800 <=? c) && (c <=? 0xDFFF).

(** Code points that UTF-8 can carry. *)
Definition scalarb (c : Z) : bool :=
  (0 <=? c) && (c <? 0x110000) && negb (is_surrogate c).

(** Encoding of one code point. *)
Definition utf8_encode_char (c : Z) : M bytes :=
  if c <? 0 then raise UnicodeEncodeError
  else if c <? 0x80 then ret [c]
  else if c <? 0x800 then ret [0xC0 + c / 64; 0x80 + c mod 64]
  else if is_surrogate c then raise UnicodeEncodeError
  else if c <? 0x10000
    then ret [0xE0 + c / 4096; 0x80 + (c / 64) mod 64; 0x80 + c mod 64]
  else if c <? 0x110000
    then ret [0xF0 + c / 262144; 0x80 + (c / 4096) mod 64;
              0x80 + (c / 64) mod 64; 0x80 + c mod 64]
  else raise UnicodeEncodeError.

(** [s.encode('UTF-8')] *)
Fixpoint utf8_encode (s : str) : M bytes :=
  match s with
  | [] => ret []
  | c :: r =>
    bind (utf8_encode_char c) (fun b =>
    bind (utf8_encode r) (fun br => ret (b ++ br)))
  end.

Definition is_cont (b : Z) : bool := (0x80 <=? b) && (b <? 0xC0).

(** [b.decode('UTF-8')], strict: a truncated or overlong sequence, a stray
    continuation byte, a surrogate or a value above U+10FFFF is an error.
    [pending] is the number of continuation bytes still expected, [acc] the
    bits read so far and [lo] the least code point this sequence may
    encode. *)
Fixpoint utf8_decode_from (b : bytes) (pending : nat) (acc lo : Z) : M str :=
  match b with
  | [] =>
    match pending with
    | O => ret []
    | S _ => raise UnicodeDecodeError
    end
  | x :: r =>
    match pending with
    | O =>
      if (0 <=? x) && (x <? 0x80)
        then bind (utf8_decode_from r 0 0 0) (fun s => ret (x :: s))
      else if (0xC0 <=? x) && (x <? 0xE0)
        then utf8_decode_from r 1 (x - 0xC0) 0x80
      else if (0xE0 <=? x) && (x <? 0xF0)
        then utf8_decode_from r 2 (x - 0xE0) 0x800
      else if (0xF0 <=? x) && (x <? 0xF8)
        then utf8_decode_from r 3 (x - 0xF0) 0x10000
      else raise UnicodeDecodeError
    | S n =>
      if is_cont x
      then
        let acc' := acc * 64 + (x - 0x80) in
        match n with
        | O =>
          if (lo <=? acc') && (acc' <? 0x110000) && negb (is_surrogate acc')
          then bind (utf8_decode_from r 0 0 0) (fun s => ret (acc' :: s))
          else raise UnicodeDecodeError
        | S _ => utf8_decode_from r n acc' lo
        end
      else raise UnicodeDecodeError
    end
  end.

Definition utf8_decode (b : bytes) : M str := utf8_decode_from b 0 0 0.

End Py.

Notation "x <- m ;; k" := (Py.bind m (fun x => k))
  (at level 61, m at next level, right associativity).

(** ** Programs with output: printing, socket calls, [sys.exit()] *)

Module IO.

Inductive Outcome (A : Type) : Type :=
| Returned (a : A)
| SysExit
| Raised (e : Py.Exc).
Arguments Returned {A} a.
Arguments SysExit {A}.
Arguments Raised {A} e.

(** What a run did, in order, and how it ended. *)
Definition t (E A : Type) : Type := (list E * Outcome A)%type.

Definition ret {E A} (a : A) : t E A := ([], Returned a).

Definition bind {E A B} (m : t E A) (k : A -> t E B) : t E B :=
  match m with
  | (tr, Returned a) => let '(tr', o) := k a in (tr ++ tr', o)
  | (tr, SysExit) => (tr, SysExit)
  | (tr, Raised e) => (tr, Raised e)
  end.

Definition emit {E} (e : E) : t E unit := ([e], Returned tt).

(** [sys.exit()] *)
Definition sys_exit {E A} : t E A := ([], SysExit).

Definition lift {E A} (m : Py.M A) : t E A :=
  match m with
  | inl e => ([], Raised e)
  | inr a => ([], Returned a)
  end.

(** [if c: body] *)
Definition when {E} (c : bool) (body : t E unit) : t E unit :=
  if c then body else ret tt.

Definition trace {E A} (m : t E A) : list E := fst m.
Definition outcome {E A} (m : t E A) : Outcome A := snd m.

End IO.

Notation "x <<- m ;; k" := (IO.bind m (fun x => k))
  (at level 61, m at next level, right associativity).
Notation "m >> k" := (IO.bind m (fun _ => k))
  (at level 61, right associativity).

(** ** Values shared by the two programs *)

(** [(host, port)] as [recvfrom] and [sendto] use it. *)
Definition Addr : Type := (Py.str * Z)%type.

(** The fields of [datetime.now()] that the server reads. *)
Record DateTime : Type := mkDateTime {
  year : Z;
  month : Z;
  day : Z;
  hour : Z;
  minute : Z
}.

(** A [dict] with integer keys, as the list of its items in insertion
    order; a key given twice keeps its last value. *)
Definition Dict (V : Type) : Type := list (Z * V).

Fixpoint dict_find {V} (d : Dict V) (k : Z) (found : option V) : option V :=
  match d with
  | [] => found
  | (k', v) :: r => dict_find r k (if k' =? k then Some v else found)
  end.

(** [d[k]] *)
Definition dict_get {V} (d : Dict V) (k : Z) : Py.M V :=
  match dict_find d k None with
  | Some v => Py.ret v
  | None => Py.raise Py.KeyError
  end.

(** [l[i]] on a [list]: a negative index counts from the end. *)
Definition list_get {V} (l : list V) (i : Z) : Py.M V :=
  let j := if i <? 0 then i + Py.len l else i in
  if j <? 0 then Py.raise Py.IndexError
  else match nth_error l (Z.to_nat j) with
       | Some v => Py.ret v
       | None => Py.raise Py.IndexError
       end.

(** ** server.py *)

Module Server.

Definition MAGIC_NUMBER : Z := 0x497E.
Definition DT_REQ : Z := 0x0001.
Definition DT_RES : Z := 0x0002.
Definition REQ_DATE : Z := 0x0001.
Definition REQ_TIME : Z := 0x0002.

Definition STRINGS : Dict (list Py.str) :=
  [ (0x1, [Py.lit "Today's date is {0} {1}, {2}";
           Py.lit "The current time is {0:02d}:{1:02d}"]);
    (0x2, [Py.lit "Ko te ra o tenei ra ko {0} {1}, {2}";
           Py.lit "Ko te wa o tenei wa {0:02d}:{1:02d}"]);
    (0x3, [Py.lit "Heute ist der {1}. {0} {2}";
           Py.lit "Die Uhrzeit ist {0:02d}:{1:02d}"]) ].

(** Letters outside ASCII in the month names. *)
Definition a_macron : Py.str := [0x101].
Definition o_macron : Py.str := [0x14D].
Definition u_macron : Py.str := [0x16B].
Definition a_umlaut : Py.str := [0xE4].

Definition MONTHS : Dict (list Py.str) :=
  [ (0x1, map Py.lit
           ["January"; "February"; "March"; "April"; "May"; "June";
            "July"; "August"; "September"; "October"; "November";
            "December"]%string);
    (0x2, [Py.lit "Kohit" ++ a_macron ++ Py.lit "tea";
           Py.lit "Hui-tanguru";
           Py.lit "Pout" ++ u_macron ++ Py.lit "-te-rangi";
           Py.lit "Paenga-wh" ++ a_macron ++ Py.lit "wh" ++ a_macron;
           Py.lit "Haratua";
           Py.lit "Pipiri";
           Py.lit "H" ++ o_macron ++ Py.lit "ngongoi";
           Py.lit "Here-turi-k" ++ o_macron ++ Py.lit "k" ++ a_macron;
           Py.lit "Mahuru";
           Py.lit "Whiringa-" ++ a_macron ++ Py.lit "-nuku";
           Py.lit "Whiringa-" ++ a_macron ++ Py.lit "-rangi";
           Py.lit "Hakihea"]);
    (0x3, [Py.lit "Januar"; Py.lit "Februar";
           Py.lit "M" ++ a_umlaut ++ Py.lit "rz";
           Py.lit "April"; Py.lit "Mai"; Py.lit "Juni"; Py.lit "Juli";
           Py.lit "August"; Py.lit "September"; Py.lit "Oktober";
           Py.lit "November"; Py.lit "Dezember"]) ].

(** What the server prints and sends.  The log lines carry the values the
    source formats into them. *)
Inductive Effect : Type :=
| AlertUnrecognised (addr : Addr) (data : Py.bytes)
| AlertNonRequest (addr : Addr) (data : Py.bytes)
| InfoReceived (addr : Addr) (type_code lang_code : Z)
| InfoSent (addr : Addr)
| PrintError
| SendTo (port : Z) (data : Py.bytes) (addr : Addr).

(** [None] is Python's [None]. *)
Definition process_packet (packet : Py.bytes) (addr : Addr)
  : IO.t Effect (option Z) :=
  if negb (Py.len packet =? 6) then
    IO.emit (AlertUnrecognised addr packet) >> IO.ret None
  else if negb (Py.from_bytes_big (Py.slice packet 0 2) =? MAGIC_NUMBER) then
    IO.emit (AlertUnrecognised addr packet) >> IO.ret None
  else if negb (Py.from_bytes_big (Py.slice packet 2 4) =? DT_REQ) then
    IO.emit (AlertNonRequest addr packet) >> IO.ret None
  else
    IO.ret (Some (Py.from_bytes_big (Py.slice packet 5 6))).

(** The text of the response; [curr_time] is what [datetime.now()]
    returned. *)
Definition text_of (curr_time : DateTime) (request_type lang_code : Z)
  : Py.M Py.str :=
  let text_string := [] in
  text_string <-
    (if request_type =? REQ_DATE then
       strings <- dict_get STRINGS lang_code ;;
       tmpl <- list_get strings 0 ;;
       months <- dict_get MONTHS lang_code ;;
       name <- list_get months (month curr_time - 1) ;;
       Py.format tmpl [Py.VStr name; Py.VInt (day curr_time);
                       Py.VInt (year curr_time)]
     else Py.ret text_string) ;;
  (if request_type =? REQ_TIME then
     strings <- dict_get STRINGS lang_code ;;
     tmpl <- list_get strings 1 ;;
     Py.format tmpl [Py.VInt (hour curr_time); Py.VInt (minute curr_time)]
   else Py.ret text_string).

Definition create_packet (curr_time : DateTime) (request_type lang_code : Z)
  : Py.M Py.bytes :=
  text_string <- text_of curr_time request_type lang_code ;;
  encoded <- Py.utf8_encode text_string ;;
  let length := Py.len encoded in
  let packet := Py.bytearray (Z.to_nat (13 + length)) in
  b <- Py.to_bytes2_big MAGIC_NUMBER ;;
  packet <- Py.set_slice packet 0 2 b ;;
  b <- Py.to_bytes2_big DT_RES ;;
  packet <- Py.set_slice packet 2 4 b ;;
  b <- Py.to_bytes2_big lang_code ;;
  packet <- Py.set_slice packet 4 6 b ;;
  b <- Py.to_bytes2_big (year curr_time) ;;
  packet <- Py.set_slice packet 6 8 b ;;
  packet <- Py.set_slice packet 8 12
              [month curr_time; day curr_time; hour curr_time;
               minute curr_time] ;;
  packet <- Py.set_index packet 12 length ;;
  encoded <- Py.utf8_encode text_string ;;
  packet <- Py.set_slice_from packet 13 encoded ;;
  Py.ret packet.

(** A socket that [select] reports readable: the port it is bound to and
    the datagram [recvfrom] will return from it. *)
Record Readable : Type := mkReadable {
  sock_port : Z;
  received_packet : Py.bytes;
  sender : Addr
}.

(** One return of [select]: the readable sockets (none on a timeout), and
    the clock reading should a response be built in this iteration. *)
Record Tick : Type := mkTick {
  readable : list Readable;
  now : DateTime
}.

(** Truth value of what [process_packet] returns. *)
Definition truthy (request : option Z) : bool :=
  match request with
  | None => false
  | Some v => negb (v =? 0)
  end.

(** The body of the [while True] loop. *)
Definition iteration (languages : Dict Z) (tick : Tick)
  : IO.t Effect unit :=
  match readable tick with
  | [] => IO.ret tt
  | sock :: _ =>
    let addr := sender sock in
    request <<- process_packet (received_packet sock) addr ;;
    if truthy request then
      let request_code := match request with Some v => v | None => 0 end in
      lang <<- IO.lift (dict_get languages (sock_port sock)) ;;
      IO.emit (InfoReceived addr request_code lang) >>
      lang <<- IO.lift (dict_get languages (sock_port sock)) ;;
      to_send <<- IO.lift (create_packet (now tick) request_code lang) ;;
      IO.emit (SendTo (sock_port sock) to_send addr) >>
      IO.emit (InfoSent addr)
    else IO.ret tt
  end.

(** The loop, run over the successive returns of [select].  It is left
    only by an exception; when the script is used up the server is back
    in [select]. *)
Fixpoint listen (languages : Dict Z) (ticks : list Tick)
  : IO.t Effect unit :=
  match ticks with
  | [] => IO.ret tt
  | tick :: rest => iteration languages tick >> listen languages rest
  end.


End Server.

(** ** client.py *)

Module Client.

Definition MAGIC_NUMBER : Z := 0x497E.
Definition DT_REQ : Z := 0x0001.
Definition DT_RES : Z := 0x0002.
Definition REQ_DATE : Z := 0x0001.
Definition REQ_TIME : Z := 0x0002.

Definition str_eqb (a b : Py.str) : bool :=
  if list_eq_dec Z.eq_dec a b then true else false.

Definition packet_create (req_type : Py.str) : Py.M Py.bytes :=
  let packet := Py.bytearray 6 in
  b <- Py.to_bytes2_big MAGIC_NUMBER ;;
  packet <- Py.set_slice packet 0 2 b ;;
  b <- Py.to_bytes2_big DT_REQ ;;
  packet <- Py.set_slice packet 2 4 b ;;
  packet <-
    (if str_eqb req_type (Py.lit "date") then
       b <- Py.to_bytes2_big REQ_DATE ;; Py.set_slice packet 4 6 b
     else Py.ret packet) ;;
  packet <-
    (if str_eqb req_type (Py.lit "time") then
       b <- Py.to_bytes2_big REQ_TIME ;; Py.set_slice packet 4 6 b
     else Py.ret packet) ;;
  Py.ret packet.

(** What the client prints and what it does to its socket. *)
Inductive Effect : Type :=
| Print (line : Py.str)
| PrintError
| PrintTimeout (host_addr : Py.str) (port_num : Z)
| PrintReceived (addr : Addr) (data : Py.bytes)
| SockCreate
| SockSendTo (data : Py.bytes) (addr : Addr)
| SockSelect
| SockRecvFrom
| SockClose.

(** The network as one run of the client sees it: whether the socket can
    be created, and the datagram that arrives before the timeout, if
    any. *)
Record Net : Type := mkNet {
  socket_ok : bool;
  arrival : option (Py.bytes * Addr)
}.

Definition socket_open (net : Net) (host_addr : Py.str) (port_num : Z)
    (transmit_packet : Py.bytes) : IO.t Effect (Py.bytes * Addr) :=
  (if socket_ok net then IO.emit SockCreate
   else IO.emit PrintError >> IO.sys_exit) >>
  IO.emit (SockSendTo transmit_packet (host_addr, port_num)) >>
  IO.emit SockSelect >>
  received_packet <<-
    match arrival net with
    | None =>
      IO.emit (PrintTimeout host_addr port_num) >> IO.sys_exit
    | Some received_packet =>
      IO.emit SockRecvFrom >>
      IO.emit (PrintReceived (snd received_packet) (fst received_packet)) >>
      IO.ret received_packet
    end ;;
  IO.emit SockClose >>
  IO.ret received_packet.

(** The header fields as [process_packet] reads them. *)
Record Fields : Type := mkFields {
  rec_magic_num : Z;
  rec_packet_type : Z;
  rec_lang_code : Z;
  rec_year : Z;
  rec_month : Z;
  rec_day : Z;
  rec_hour : Z;
  rec_min : Z;
  rec_len : Z
}.

Definition extract (packet : Py.bytes) : Py.M Fields :=
  let rec_magic_num := Py.from_bytes_big (Py.slice packet 0 2) in
  let rec_packet_type := Py.from_bytes_big (Py.slice packet 2 4) in
  let rec_lang_code := Py.from_bytes_big (Py.slice packet 4 6) in
  let rec_year := Py.from_bytes_big (Py.slice packet 6 8) in
  rec_month <- Py.index packet 8 ;;
  rec_day <- Py.index packet 9 ;;
  rec_hour <- Py.index packet 10 ;;
  rec_min <- Py.index packet 11 ;;
  rec_len <- Py.index packet 12 ;;
  Py.ret (mkFields rec_magic_num rec_packet_type rec_lang_code rec_year
                   rec_month rec_day rec_hour rec_min rec_len).

(** The reasons for which a received packet is refused.  Each but the last
    is announced by a message of its own before [sys.exit()]; the last is
    the [UnicodeDecodeError] of the final [decode]. *)
Inductive RejectReason : Type :=
| Malformed
| BadMagic
| WrongPacketType
| InvalidLanguage
| InvalidYear
| InvalidMonth
| InvalidDay
| InvalidHour
| InvalidMinute
| LengthMismatch
| InvalidEncoding.

Definition RejectReason_eq_dec (a b : RejectReason) : {a = b} + {a <> b}.
Proof. decide equality. Defined.

Definition message (r : RejectReason) : Py.str :=
  match r with
  | Malformed => Py.lit "[ALERT] ** Malformed packet received"
  | BadMagic => Py.lit "[WARN] ** Non DT packet received"
  | WrongPacketType => Py.lit "[WARN] ** Non DT-Response packet received"
  | InvalidLanguage =>
    Py.lit "[WARN] ** Invalid language code in received DT-Response"
  | InvalidYear =>
    Py.lit "[WARN] ** Invalid year number in received DT-Response"
  | InvalidMonth =>
    Py.lit "[WARN] ** Invalid month number in received DT-Response"
  | InvalidDay =>
    Py.lit "[WARN] ** Invalid day number in received DT-Response"
  | InvalidHour =>
    Py.lit "[WARN] ** Invalid hour number in received DT-Response"
  | InvalidMinute =>
    Py.lit "[WARN] ** Invalid minute number in received DT-Response"
  | LengthMismatch => Py.lit "[WARN] ** Packet lengths do not match"
  | InvalidEncoding => []
  end.

(** [print(message); sys.exit()] *)
Definition reject {A} (r : RejectReason) : IO.t Effect A :=
  IO.emit (Print (message r)) >> IO.sys_exit.

Definition tab : Py.str := [9].

Definition type_str : Py.str :=
  Py.lit "[DATA] -- Magic Number: {0}" ++ tab ++ tab ++
  Py.lit "Packet type: {1}" ++ tab ++ tab ++ Py.lit "Language code: {2}".
Definition date_str : Py.str :=
  Py.lit "[DATA] -- Date: {0:04d}-{1:02d}-{2:02d}" ++ tab ++ tab ++
  Py.lit "Time: {3:02d}:{4:02d}".
Definition text_str : Py.str := Py.lit "[DATA] -- Text: {0}".

Definition process_packet (packet : Py.bytes) : IO.t Effect unit :=
  IO.when (Py.len packet <? 13) (reject Malformed) >>
  f <<- IO.lift (extract packet) ;;
  IO.when (negb (rec_magic_num f =? MAGIC_NUMBER)) (reject BadMagic) >>
  IO.when (negb (rec_packet_type f =? DT_RES)) (reject WrongPacketType) >>
  IO.when (negb (existsb (Z.eqb (rec_lang_code f)) [0x1; 0x2; 0x3]))
    (reject InvalidLanguage) >>
  IO.when (rec_year f >=? 2100) (reject InvalidYear) >>
  IO.when ((rec_month f <? 1) || (rec_month f >? 12)) (reject InvalidMonth) >>
  IO.when ((rec_day f <? 1) || (rec_day f >? 31)) (reject InvalidDay) >>
  IO.when ((rec_hour f <? 0) || (rec_hour f >? 24)) (reject InvalidHour) >>
  IO.when ((rec_min f <? 0) || (rec_min f >? 60)) (reject InvalidMinute) >>
  IO.when (negb (rec_len f + 13 =? Py.len packet)) (reject LengthMismatch) >>
  line <<- IO.lift (Py.format type_str
                      [Py.VStr (Py.hex (rec_magic_num f));
                       Py.VInt (rec_packet_type f);
                       Py.VInt (rec_lang_code f)]) ;;
  IO.emit (Print line) >>
  line <<- IO.lift (Py.format date_str
                      [Py.VInt (rec_day f); Py.VInt (rec_month f);
                       Py.VInt (rec_year f); Py.VInt (rec_hour f);
                       Py.VInt (rec_min f)]) ;;
  IO.emit (Print line) >>
  text <<- IO.lift (Py.utf8_decode (Py.slice_from packet 13)) ;;
  line <<- IO.lift (Py.format text_str [Py.VStr text]) ;;
  IO.emit (Print line).

(** [main] once the arguments are parsed. *)
Definition main (net : Net) (req_type host_addr : Py.str) (host_port : Z)
  : IO.t Effect unit :=
  tx_packet <<- IO.lift (packet_create req_type) ;;
  return_packet <<- socket_open net host_addr host_port tx_packet ;;
  process_packet (fst return_packet).

(** Whether the socket is open after the socket calls of a trace. *)
Fixpoint socket_is_open (tr : list Effect) (opened : bool) : bool :=
  match tr with
  | [] => opened
  | SockCreate :: r => socket_is_open r true
  | SockClose :: r => socket_is_open r false
  | _ :: r => socket_is_open r opened
  end.

End Client.

(** ** The protocol as the specification words it

    The layout of a DT-Response, the admissible range of each header field,
    the order of the decoder's checks and the texts of the localization
    table, written independently of the programs above. *)

Module Spec.

Definition u8 (p : Py.bytes) (off : nat) : Z := nth off p 0.
Definition u16 (p : Py.bytes) (off : nat) : Z :=
  256 * u8 p off + u8 p (S off).

Inductive Field : Type :=
| MagicNumber
| PacketType
| LanguageCode
| Year
| Month
| Day
| Hour
| Minute
| TextLength.

Definition Field_eq_dec (a b : Field) : {a = b} + {a <> b}.
Proof. decide equality. Defined.

Definition value (fld : Field) (p : Py.bytes) : Z :=
  match fld with
  | MagicNumber => u16 p 0
  | PacketType => u16 p 2
  | LanguageCode => u16 p 4
  | Year => u16 p 6
  | Month => u8 p 8
  | Day => u8 p 9
  | Hour => u8 p 10
  | Minute => u8 p 11
  | TextLength => u8 p 12
  end.

(** The range the data model gives each field. *)
Definition in_range (fld : Field) (p : Py.bytes) : bool :=
  let v := value fld p in
  match fld with
  | MagicNumber => v =? 0x497E
  | PacketType => v =? 2
  | LanguageCode => (v =? 1) || (v =? 2) || (v =? 3)
  | Year => v <? 2100
  | Month => (1 <=? v) && (v <=? 12)
  | Day => (1 <=? v) && (v <=? 31)
  | Hour => (0 <=? v) && (v <=? 24)
  | Minute => (0 <=? v) && (v <=? 60)
  | TextLength => 13 + v =? Py.len p
  end.

Definition reason (fld : Field) : Client.RejectReason :=
  match fld with
  | MagicNumber => Client.BadMagic
  | PacketType => Client.WrongPacketType
  | LanguageCode => Client.InvalidLanguage
  | Year => Client.InvalidYear
  | Month => Client.InvalidMonth
  | Day => Client.InvalidDay
  | Hour => Client.InvalidHour
  | Minute => Client.InvalidMinute
  | TextLength => Client.LengthMismatch
  end.

(** The fixed order of the field checks. *)
Definition check_order : list Field :=
  [MagicNumber; PacketType; LanguageCode; Year; Month; Day; Hour; Minute;
   TextLength].

(** The reason a fail-fast decoder reports: the earliest failing check in
    the order length, fields, text encoding. *)
Definition first_failure (p : Py.bytes) : option Client.RejectReason :=
  if Py.len p <? 13 then Some Client.Malformed
  else
    match find (fun fld => negb (in_range fld p)) check_order with
    | Some fld => Some (reason fld)
    | None =>
      match Py.utf8_decode (skipn 13 p) with
      | inl _ => Some Client.InvalidEncoding
      | inr _ => None
      end
    end.

(** Every field but [fld] is in range, in a packet long enough to have
    them. *)
Definition valid_except (fld : Field) (p : Py.bytes) : Prop :=
  13 <= Py.len p /\ forall g, g <> fld -> in_range g p = true.

(** The single-field corruptions of the rejection property. *)
Definition corrupted (fld : Field) (p : Py.bytes) : Prop :=
  let v := value fld p in
  match fld with
  | MagicNumber => v <> 0x497E
  | PacketType => v <> 2
  | LanguageCode => v = 0 \/ v = 4
  | Year => v = 2100
  | Month => v = 0 \/ v = 13
  | Day => v = 0 \/ v = 32
  | Hour => v = 25
  | Minute => v = 61
  | TextLength => v = Py.len p - 13 + 1 \/ v = Py.len p - 13 - 1
  end.

(** The boundary values that must be accepted. *)
Definition boundary (fld : Field) (p : Py.bytes) : Prop :=
  let v := value fld p in
  match fld with
  | Hour => v = 24
  | Minute => v = 60
  | Year => v = 2099
  | Month => v = 12
  | Day => v = 31
  | _ => False
  end.

(** How the client's run shows a reason: its message and [sys.exit()],
    or the exception of the final [decode]. *)
Definition rejected_as (r : Client.RejectReason)
    (run : IO.t Client.Effect unit) : Prop :=
  match r with
  | Client.InvalidEncoding =>
    IO.outcome run = IO.Raised Py.UnicodeDecodeError
  | _ => run = ([Client.Print (Client.message r)], IO.SysExit)
  end.

Definition accepted (run : IO.t Client.Effect unit) : Prop :=
  IO.outcome run = IO.Returned tt.

(** The lines an accepted packet is rendered as. *)
Definition type_line (magic type lang : Z) : Py.str :=
  Py.lit "[DATA] -- Magic Number: " ++ Py.hex magic ++ [9; 9] ++
  Py.lit "Packet type: " ++ Py.str_of_int type ++ [9; 9] ++
  Py.lit "Language code: " ++ Py.str_of_int lang.

(** The first number is padded to four digits, the others to two. *)
Definition date_line (first second third h m : Z) : Py.str :=
  Py.lit "[DATA] -- Date: " ++ Py.format_0d 4 first ++ Py.lit "-" ++
  Py.format_0d 2 second ++ Py.lit "-" ++ Py.format_0d 2 third ++ [9; 9] ++
  Py.lit "Time: " ++ Py.format_0d 2 h ++ Py.lit ":" ++ Py.format_0d 2 m.

Definition text_line (text : Py.str) : Py.str :=
  Py.lit "[DATA] -- Text: " ++ text.

(** What the client prints for a packet that passed the field checks. *)
Definition render (p : list Z) : IO.t Client.Effect unit :=
  let l1 := type_line (u16 p 0) (u16 p 2) (u16 p 4) in
  let l2 := date_line (u8 p 9) (u8 p 8) (u16 p 6)
              (u8 p 10) (u8 p 11) in
  match Py.utf8_decode (skipn 13 p) with
  | inl e => ([Client.Print l1; Client.Print l2], IO.Raised e)
  | inr text =>
    ([Client.Print l1; Client.Print l2;
      Client.Print (text_line text)], IO.Returned tt)
  end.

(** The localization table: month names per language. *)
Definition month_names (lang : Z) : list Py.str :=
  if lang =? 1 then
    map Py.lit ["January"; "February"; "March"; "April"; "May"; "June";
                "July"; "August"; "September"; "October"; "November";
                "December"]%string
  else if lang =? 2 then
    [ Py.lit "Kohit" ++ [0x101] ++ Py.lit "tea";
      Py.lit "Hui-tanguru";
      Py.lit "Pout" ++ [0x16B] ++ Py.lit "-te-rangi";
      Py.lit "Paenga-wh" ++ [0x101] ++ Py.lit "wh" ++ [0x101];
      Py.lit "Haratua";
      Py.lit "Pipiri";
      Py.lit "H" ++ [0x14D] ++ Py.lit "ngongoi";
      Py.lit "Here-turi-k" ++ [0x14D] ++ Py.lit "k" ++ [0x101];
      Py.lit "Mahuru";
      Py.lit "Whiringa-" ++ [0x101] ++ Py.lit "-nuku";
      Py.lit "Whiringa-" ++ [0x101] ++ Py.lit "-rangi";
      Py.lit "Hakihea" ]
  else
    [ Py.lit "Januar"; Py.lit "Februar"; Py.lit "M" ++ [0xE4] ++ Py.lit "rz";
      Py.lit "April"; Py.lit "Mai"; Py.lit "Juni"; Py.lit "Juli";
      Py.lit "August"; Py.lit "September"; Py.lit "Oktober";
      Py.lit "November"; Py.lit "Dezember" ].

Definition month_name (lang m : Z) : Py.str :=
  nth (Z.to_nat (m - 1)) (month_names lang) [].

(** The date sentence of each language, filled in. *)
Definition date_text (lang : Z) (t : DateTime) : Py.str :=
  let name := month_name lang (month t) in
  let d := Py.str_of_int (day t) in
  let y := Py.str_of_int (year t) in
  if lang =? 1 then
    Py.lit "Today's date is " ++ name ++ Py.lit " " ++ d ++ Py.lit ", " ++ y
  else if lang =? 2 then
    Py.lit "Ko te ra o tenei ra ko " ++ name ++ Py.lit " " ++ d ++
    Py.lit ", " ++ y
  else
    Py.lit "Heute ist der " ++ d ++ Py.lit ". " ++ name ++ Py.lit " " ++ y.

(** The time sentence of each language, filled in. *)
Definition time_text (lang : Z) (t : DateTime) : Py.str :=
  let hm := Py.format_0d 2 (hour t) ++ Py.lit ":" ++
            Py.format_0d 2 (minute t) in
  if lang =? 1 then Py.lit "The current time is " ++ hm
  else if lang =? 2 then Py.lit "Ko te wa o tenei wa " ++ hm
  else Py.lit "Die Uhrzeit ist " ++ hm.

Definition localized_text (request_kind lang : Z) (t : DateTime) : Py.str :=
  if request_kind =? 1 then date_text lang t else time_text lang t.

(** The datagrams sent in a run of the server. *)
Definition responses (tr : list Server.Effect) : list (Py.bytes * Addr) :=
  flat_map (fun e => match e with
                     | Server.SendTo _ data addr => [(data, addr)]
                     | _ => []
                     end) tr.

(** A Request that fails to decode: wrong length, magic number or packet
    type. *)
Definition bad_request (p : Py.bytes) : Prop :=
  Py.len p <> 6 \/ u16 p 0 <> 0x497E \/ u16 p 2 <> 1.

(** The request kind of a Request, a 16-bit field at offset 4. *)
Definition request_kind (p : Py.bytes) : Z := u16 p 4.

End Spec.

(** ** The argument checks of the two programs

    [argparse] has turned the port arguments into integers; what follows it
    in [check_arguments] is modelled, with the restriction [choices] puts on
    the client's request type and the outcome of [gethostbyname] as an
    input. *)

Module ServerArgs.

Inductive PortName : Type :=
| EN_Port
| MI_Port
| GE_Port.

(** The error line naming the port out of range. *)
Inductive Effect : Type :=
| PrintNotInRange (name : PortName).

(** [v in range(lo, hi)] for an integer [v]. *)
Definition in_range (v lo hi : Z) : bool := (lo <=? v) && (v <? hi).

Definition check_arguments (en mi ge : Z) : IO.t Effect (Z * Z * Z) :=
  IO.when (negb (in_range en 1024 64001))
    (IO.emit (PrintNotInRange EN_Port) >> IO.sys_exit) >>
  IO.when (negb (in_range mi 1024 64001))
    (IO.emit (PrintNotInRange MI_Port) >> IO.sys_exit) >>
  IO.when (negb (in_range ge 1024 64001))
    (IO.emit (PrintNotInRange GE_Port) >> IO.sys_exit) >>
  IO.ret (en, mi, ge).

End ServerArgs.

Module ClientArgs.

Inductive Effect : Type :=
| ArgparseError
| PrintResolveError
| PrintInvalidPort.

(** [choices=['date', 'time']] *)
Definition choices : list Py.str := [Py.lit "date"; Py.lit "time"].

(** [resolved] is what [gethostbyname] returns for the address argument,
    [None] when it raises [socket.error]. *)
Definition check_arguments (type : Py.str) (resolved : option Py.str)
    (port : Z) : IO.t Effect (Py.str * Py.str * Z) :=
  IO.when (negb (existsb (Client.str_eqb type) choices))
    (IO.emit ArgparseError >> IO.sys_exit) >>
  host_addr <<-
    match resolved with
    | Some host_addr => IO.ret host_addr
    | None => IO.emit PrintResolveError >> IO.sys_exit
    end ;;
  IO.when ((port <? 1024) || (port >? 64000))
    (IO.emit PrintInvalidPort >> IO.sys_exit) >>
  IO.ret (type, host_addr, port).

End ClientArgs.

(** ** What a run shows on the network *)

Module Wire.

(** The datagrams the server sent, with the port of the socket used. *)
Definition server_sent (tr : list Server.Effect)
  : list (Z * list Z * Addr) :=
  flat_map (fun e => match e with
                     | Server.SendTo port data addr => [(port, data, addr)]
                     | _ => []
                     end) tr.


(** The datagram at the head of each return of [select], with the port it
    came in on and its sender. *)
Definition arrivals (ticks : list Server.Tick) : list (Z * Addr) :=
  flat_map (fun tick => match Server.readable tick with
                        | [] => []
                        | sock :: _ =>
                          [(Server.sock_port sock, Server.sender sock)]
                        end) ticks.

(** [a] is [b] with some items left out. *)
Inductive Subseq {A : Type} : list A -> list A -> Prop :=
| Subseq_nil : Subseq [] []
| Subseq_skip : forall x a b, Subseq a b -> Subseq a (x :: b)
| Subseq_take : forall x a b, Subseq a b -> Subseq (x :: a) (x :: b).

(** Port and destination of a datagram sent. *)
Definition route (s : Z * list Z * Addr) : Z * Addr :=
  let '(port, _, addr) := s in (port, addr).

(** The header of a response and the bytes of its text. *)
Definition response_layout (lang : Z) (t : DateTime) (enc : list Z)
  : list Z :=
  [0x49; 0x7E; 0; 2; lang / 256; lang mod 256;
   year t / 256; year t mod 256;
   month t; day t; hour t; minute t; Py.len enc] ++ enc.

(** The fields whose value, not the framing, can make a packet refused. *)
Definition value_fields : list Spec.Field :=
  [Spec.LanguageCode; Spec.Year; Spec.Month; Spec.Day; Spec.Hour;
   Spec.Minute].

(** A clock reading [datetime.now()] can return. *)
Definition clock_ok (t : DateTime) : Prop :=
  1 <= year t <= 9999 /\ 1 <= month t <= 12 /\ 1 <= day t <= 31 /\
  0 <= hour t <= 23 /\ 0 <= minute t <= 59.

End Wire.

(** ** Facts about the runtime model *)

(** Settles comparisons of integers that arithmetic decides. *)
Ltac tests :=
  repeat match goal with
  | |- context [?a <=? ?b] =>
    first [ replace (a <=? b) with true by (symmetry; apply Z.leb_le; lia)
          | replace (a <=? b) with false by (symmetry; apply Z.leb_gt; lia) ]
  | |- context [?a <? ?b] =>
    first [ replace (a <? b) with true by (symmetry; apply Z.ltb_lt; lia)
          | replace (a <? b) with false by (symmetry; apply Z.ltb_ge; lia) ]
  end.

Section BytesFacts.

Lemma is_byteb_true b : 0 <= b < 256 -> Py.is_byteb b = true.
Proof.
  unfold Py.is_byteb. intros H. apply andb_true_iff.
  split; [apply Z.leb_le | apply Z.ltb_lt]; lia.
Qed.

Lemma from_bytes_big_2 a b : Py.from_bytes_big [a; b] = 256 * a + b.
Proof. unfold Py.from_bytes_big. cbn [fold_left]. lia. Qed.


Lemma to_bytes2_big_ok v :
  0 <= v < 65536 -> Py.to_bytes2_big v = inr [v / 256; v mod 256].
Proof.
  intros H. unfold Py.to_bytes2_big.
  replace (0 <=? v) with true by (symmetry; apply Z.leb_le; lia).
  replace (v <? 65536) with true by (symmetry; apply Z.ltb_lt; lia).
  reflexivity.
Qed.

Lemma two_bytes_value v : 256 * (v / 256) + v mod 256 = v.
Proof. symmetry. apply Z.div_mod. lia. Qed.

Lemma two_bytes_range v :
  0 <= v < 65536 -> 0 <= v / 256 < 256 /\ 0 <= v mod 256 < 256.
Proof. intros H. split; Z.div_mod_to_equations; lia. Qed.

Lemma inr_inj {E A} (a b : A) : @inr E A a = inr b -> a = b.
Proof. intros H. congruence. Qed.

Lemma len_app {A} (a b : list A) : Py.len (a ++ b) = Py.len a + Py.len b.
Proof. unfold Py.len. rewrite length_app. lia. Qed.

Lemma len_nonneg {A} (a : list A) : 0 <= Py.len a.
Proof. unfold Py.len. lia. Qed.

End BytesFacts.

Section Utf8Facts.

Lemma utf8_decode_lead x r acc lo :
  Py.utf8_decode_from (x :: r) 0 acc lo =
  if (0 <=? x) && (x <? 0x80)
    then s <- Py.utf8_decode_from r 0 0 0 ;; Py.ret (x :: s)
  else if (0xC0 <=? x) && (x <? 0xE0)
    then Py.utf8_decode_from r 1 (x - 0xC0) 0x80
  else if (0xE0 <=? x) && (x <? 0xF0)
    then Py.utf8_decode_from r 2 (x - 0xE0) 0x800
  else if (0xF0 <=? x) && (x <? 0xF8)
    then Py.utf8_decode_from r 3 (x - 0xF0) 0x10000
  else Py.raise Py.UnicodeDecodeError.
Proof. reflexivity. Qed.

Lemma utf8_decode_cont x r n acc lo :
  0x80 <= x < 0xC0 ->
  Py.utf8_decode_from (x :: r) (S (S n)) acc lo =
  Py.utf8_decode_from r (S n) (acc * 64 + (x - 0x80)) lo.
Proof.
  intros H. cbn [Py.utf8_decode_from]. unfold Py.is_cont. tests.
  reflexivity.
Qed.

Lemma utf8_decode_last x r acc lo :
  0x80 <= x < 0xC0 ->
  lo <= acc * 64 + (x - 0x80) < 0x110000 ->
  ~ 0xD800 <= acc * 64 + (x - 0x80) <= 0xDFFF ->
  Py.utf8_decode_from (x :: r) 1 acc lo =
  (s <- Py.utf8_decode_from r 0 0 0 ;;
   Py.ret ((acc * 64 + (x - 0x80)) :: s)).
Proof.
  intros H Hr Hs. cbn [Py.utf8_decode_from]. unfold Py.is_cont.
  set (c := acc * 64 + (x - 0x80)) in *.
  replace (Py.is_surrogate c) with false.
  - tests. reflexivity.
  - unfold Py.is_surrogate.
    destruct (Z.leb_spec 0xD800 c); destruct (Z.leb_spec c 0xDFFF);
      try reflexivity.
    lia.
Qed.

Lemma utf8_decode_1 b0 r :
  0 <= b0 < 0x80 ->
  Py.utf8_decode_from (b0 :: r) 0 0 0 =
  (s <- Py.utf8_decode_from r 0 0 0 ;; Py.ret (b0 :: s)).
Proof.
  intros H. rewrite utf8_decode_lead. tests. reflexivity.
Qed.

Lemma utf8_decode_2 b0 b1 r c :
  0xC0 <= b0 < 0xE0 -> 0x80 <= b1 < 0xC0 ->
  c = (b0 - 0xC0) * 64 + (b1 - 0x80) -> 0x80 <= c ->
  Py.utf8_decode_from (b0 :: b1 :: r) 0 0 0 =
  (s <- Py.utf8_decode_from r 0 0 0 ;; Py.ret (c :: s)).
Proof.
  intros H0 H1 Hc Hlo.
  rewrite utf8_decode_lead. tests. cbn [andb].
  rewrite utf8_decode_last by lia. rewrite <- Hc. reflexivity.
Qed.

Lemma utf8_decode_3 b0 b1 b2 r c :
  0xE0 <= b0 < 0xF0 -> 0x80 <= b1 < 0xC0 -> 0x80 <= b2 < 0xC0 ->
  c = ((b0 - 0xE0) * 64 + (b1 - 0x80)) * 64 + (b2 - 0x80) ->
  0x800 <= c -> ~ 0xD800 <= c <= 0xDFFF ->
  Py.utf8_decode_from (b0 :: b1 :: b2 :: r) 0 0 0 =
  (s <- Py.utf8_decode_from r 0 0 0 ;; Py.ret (c :: s)).
Proof.
  intros H0 H1 H2 Hc Hlo Hs.
  rewrite utf8_decode_lead. tests. cbn [andb].
  rewrite utf8_decode_cont by lia.
  rewrite utf8_decode_last by lia. rewrite <- Hc. reflexivity.
Qed.

Lemma utf8_decode_4 b0 b1 b2 b3 r c :
  0xF0 <= b0 < 0xF8 -> 0x80 <= b1 < 0xC0 -> 0x80 <= b2 < 0xC0 ->
  0x80 <= b3 < 0xC0 ->
  c = (((b0 - 0xF0) * 64 + (b1 - 0x80)) * 64 + (b2 - 0x80)) * 64
      + (b3 - 0x80) ->
  0x10000 <= c < 0x110000 ->
  Py.utf8_decode_from (b0 :: b1 :: b2 :: b3 :: r) 0 0 0 =
  (s <- Py.utf8_decode_from r 0 0 0 ;; Py.ret (c :: s)).
Proof.
  intros H0 H1 H2 H3 Hc Hlo.
  rewrite utf8_decode_lead. tests. cbn [andb].
  rewrite !utf8_decode_cont by lia.
  rewrite utf8_decode_last by lia. rewrite <- Hc. reflexivity.
Qed.

Lemma utf8_decode_encoded_char c bs r :
  Py.utf8_encode_char c = inr bs ->
  Py.utf8_decode_from (bs ++ r) 0 0 0 =
  (s <- Py.utf8_decode_from r 0 0 0 ;; Py.ret (c :: s)).
Proof.
  unfold Py.utf8_encode_char, Py.is_surrogate, Py.ret.
  destruct (Z.ltb_spec c 0); [discriminate|].
  destruct (Z.ltb_spec c 0x80).
  { intros E%inr_inj. subst bs. apply utf8_decode_1. lia. }
  destruct (Z.ltb_spec c 0x800).
  { intros E%inr_inj. subst bs.
    apply utf8_decode_2; Z.div_mod_to_equations; lia. }
  destruct (Z.leb_spec 0xD800 c); destruct (Z.leb_spec c 0xDFFF);
    cbn [andb]; try discriminate.
  all: destruct (Z.ltb_spec c 0x10000).
  all: try (intros E%inr_inj; subst bs; apply utf8_decode_3;
            Z.div_mod_to_equations; lia).
  all: destruct (Z.ltb_spec c 0x110000); try discriminate.
  all: intros E%inr_inj; subst bs; apply utf8_decode_4;
    Z.div_mod_to_equations; lia.
Qed.

Lemma utf8_round_trip s : forall b,
  Py.utf8_encode s = inr b -> Py.utf8_decode b = inr s.
Proof.
  unfold Py.utf8_decode.
  induction s as [|c s IH]; intros b; cbn [Py.utf8_encode].
  - intros [= <-]. reflexivity.
  - destruct (Py.utf8_encode_char c) as [e|bc] eqn:Ec; [discriminate|].
    destruct (Py.utf8_encode s) as [e|bs] eqn:Es; [discriminate|].
    cbn [Py.bind]. intros E%inr_inj. subst b.
    rewrite (utf8_decode_encoded_char _ _ _ Ec), (IH bs eq_refl).
    reflexivity.
Qed.

Lemma utf8_encode_char_ok c :
  Py.scalarb c = true ->
  exists bs, Py.utf8_encode_char c = inr bs /\
             forallb Py.is_byteb bs = true /\ Py.len bs <= 4.
Proof.
  unfold Py.scalarb, Py.utf8_encode_char, Py.is_surrogate.
  intros H. apply andb_true_iff in H as [H Hs].
  apply andb_true_iff in H as [H0 H1].
  apply Z.leb_le in H0. apply Z.ltb_lt in H1.
  destruct ((0xD800 <=? c) && (c <=? 0xDFFF)); [discriminate|].
  tests.
  destruct (Z.ltb_spec c 0x80); [|destruct (Z.ltb_spec c 0x800);
    [|destruct (Z.ltb_spec c 0x10000)]].
  all: eexists; split; [reflexivity|]; split; [|unfold Py.len; simpl; lia].
  all: cbn [forallb]; rewrite ?is_byteb_true; try reflexivity.
  all: Z.div_mod_to_equations; lia.
Qed.

Lemma utf8_encode_ok s :
  forallb Py.scalarb s = true ->
  exists b, Py.utf8_encode s = inr b /\
            forallb Py.is_byteb b = true /\ Py.len b <= 4 * Py.len s.
Proof.
  induction s as [|c s IH]; cbn [forallb Py.utf8_encode].
  - intros _. exists []. repeat split. unfold Py.len. simpl. lia.
  - intros H. apply andb_true_iff in H as [Hc Hs].
    destruct (utf8_encode_char_ok c Hc) as (bc & Ec & Bc & Lc).
    destruct (IH Hs) as (bs & Es & Bs & Ls).
    exists (bc ++ bs). rewrite Ec, Es. split; [reflexivity|].
    split.
    + rewrite forallb_app. apply andb_true_iff. split; assumption.
    + rewrite len_app. unfold Py.len in *. cbn [List.length]. lia.
Qed.

End Utf8Facts.

Section FormatFacts.

Lemma dec_digits_scalar u : forallb Py.scalarb (Py.dec_digits u) = true.
Proof. induction u; cbn [Py.dec_digits forallb]; rewrite ?IHu; reflexivity. Qed.

Lemma abs_digits_scalar z : forallb Py.scalarb (Py.abs_digits z) = true.
Proof. unfold Py.abs_digits. destruct (Z.to_int z); apply dec_digits_scalar. Qed.

Lemma str_of_int_scalar z : forallb Py.scalarb (Py.str_of_int z) = true.
Proof.
unfold Py.str_of_int. destruct (z <? 0); cbn [forallb];
  rewrite abs_digits_scalar; reflexivity.
Qed.

Lemma repeat_zero_scalar n : forallb Py.scalarb (repeat 48 n) = true.
Proof. induction n; cbn [repeat forallb]; rewrite ?IHn; reflexivity. Qed.

Lemma format_0d_scalar w z : forallb Py.scalarb (Py.format_0d w z) = true.
Proof.
unfold Py.format_0d. destruct (z <? 0); cbn [forallb];
  rewrite forallb_app, repeat_zero_scalar, abs_digits_scalar; reflexivity.
Qed.

(** Checking a property of every integer of a range by running it. *)
Lemma range_forall (P : Z -> bool) (lo : Z) (n : nat) :
  forallb P (map (fun i => lo + Z.of_nat i) (seq 0 n)) = true ->
  forall z, lo <= z < lo + Z.of_nat n -> P z = true.
Proof.
intros H z Hz. rewrite forallb_forall in H. apply H.
apply in_map_iff. exists (Z.to_nat (z - lo)). split; [lia|].
apply in_seq. lia.
Qed.

Lemma str_of_int_len_2 z : 0 <= z < 100 -> Py.len (Py.str_of_int z) <= 2.
Proof.
intros H. apply Z.leb_le.
apply (range_forall (fun z => Py.len (Py.str_of_int z) <=? 2) 0 100);
  [vm_compute; reflexivity | lia].
Qed.

Lemma str_of_int_len_4 z : 0 <= z < 2100 -> Py.len (Py.str_of_int z) <= 4.
Proof.
intros H. apply Z.leb_le.
apply (range_forall (fun z => Py.len (Py.str_of_int z) <=? 4) 0 2100);
  [vm_compute; reflexivity | lia].
Qed.

Lemma format_0d_2_len z : 0 <= z < 100 -> Py.len (Py.format_0d 2 z) = 2.
Proof.
intros H. apply Z.eqb_eq.
apply (range_forall (fun z => Py.len (Py.format_0d 2 z) =? 2) 0 100);
  [vm_compute; reflexivity | lia].
Qed.

Lemma format_0d_4_len z : 0 <= z < 100 -> Py.len (Py.format_0d 4 z) = 4.
Proof.
intros H. apply Z.eqb_eq.
apply (range_forall (fun z => Py.len (Py.format_0d 4 z) =? 4) 0 100);
  [vm_compute; reflexivity | lia].
Qed.

(** Runs [format] on a closed template and symbolic arguments. *)
Ltac run_format :=
  match goal with
  | |- Py.format ?tmpl _ = _ =>
    let t := eval cbv in tmpl in change tmpl with t
  end;
  cbv -[app Py.str_of_int Py.format_0d Py.hex]; rewrite ?app_nil_r;
  cbn [app]; reflexivity.

Lemma format_type_str h t l :
  Py.format Client.type_str [Py.VStr h; Py.VInt t; Py.VInt l] =
  inr (Py.lit "[DATA] -- Magic Number: " ++ h ++ [9; 9] ++
       Py.lit "Packet type: " ++ Py.str_of_int t ++ [9; 9] ++
       Py.lit "Language code: " ++ Py.str_of_int l).
Proof. run_format. Qed.

Lemma format_date_str a b c d e :
  Py.format Client.date_str
    [Py.VInt a; Py.VInt b; Py.VInt c; Py.VInt d; Py.VInt e] =
  inr (Spec.date_line a b c d e).
Proof. run_format. Qed.

Lemma format_text_str text :
  Py.format Client.text_str [Py.VStr text] = inr (Spec.text_line text).
Proof. run_format. Qed.

End FormatFacts.

(** ** The client's decoder, check by check *)

Section ClientFacts.

Lemma bind_ret_tt {E A} (k : IO.t E A) : (IO.ret tt >> k) = k.
Proof. unfold IO.bind, IO.ret. destruct k as [tr o]. reflexivity. Qed.

Lemma when_reject {A} (c : bool) (r : Client.RejectReason)
    (k : IO.t Client.Effect A) :
  (IO.when c (Client.reject r) >> k) =
  if c then ([Client.Print (Client.message r)], IO.SysExit) else k.
Proof.
destruct c; cbn [IO.when].
- reflexivity.
- apply bind_ret_tt.
Qed.

(** A packet of at least 13 bytes, header first. *)
Lemma packet_shape (p : list Z) :
  13 <= Py.len p ->
  exists b0 b1 b2 b3 b4 b5 b6 b7 b8 b9 b10 b11 b12 text,
    p = [b0; b1; b2; b3; b4; b5; b6; b7; b8; b9; b10; b11; b12] ++ text.
Proof.
intros H. unfold Py.len in H.
do 13 (destruct p as [|? p]; [cbn [List.length] in H; lia|]).
repeat eexists.
Qed.

(** The fields the client reads are the fields of the layout. *)
Lemma extract_fields p :
  13 <= Py.len p ->
  Client.extract p =
  inr (Client.mkFields (Spec.u16 p 0) (Spec.u16 p 2) (Spec.u16 p 4)
         (Spec.u16 p 6) (Spec.u8 p 8) (Spec.u8 p 9) (Spec.u8 p 10)
         (Spec.u8 p 11) (Spec.u8 p 12)).
Proof.
intros H.
destruct (packet_shape p H)
  as (b0 & b1 & b2 & b3 & b4 & b5 & b6 & b7 & b8 & b9 & b10 & b11 & b12
      & text & ->).
unfold Client.extract, Py.index, Spec.u16, Spec.u8, Py.slice.
cbn [app nth_error nth Py.bind Py.ret skipn firstn Nat.sub].
rewrite !from_bytes_big_2. reflexivity.
Qed.

Lemma extract_short p e : Py.len p < 13 -> Client.extract p <> inr e.
Proof.
intros H. unfold Client.extract, Py.index.
assert (L : (List.length p <= 12)%nat) by (unfold Py.len in H; lia).
assert (E12 : nth_error p 12 = None) by (apply nth_error_None; lia).
destruct (nth_error p 8); [|discriminate].
destruct (nth_error p 9); [|discriminate].
destruct (nth_error p 10); [|discriminate].
destruct (nth_error p 11); [|discriminate].
rewrite E12. discriminate.
Qed.

Lemma process_packet_short p :
  Py.len p < 13 ->
  Client.process_packet p =
  ([Client.Print (Client.message Client.Malformed)], IO.SysExit).
Proof.
intros H. unfold Client.process_packet.
rewrite when_reject.
replace (Py.len p <? 13) with true by (symmetry; apply Z.ltb_lt; lia).
reflexivity.
Qed.

Lemma process_packet_checks p :
  13 <= Py.len p ->
  Client.process_packet p =
  match find (fun fld => negb (Spec.in_range fld p)) Spec.check_order with
  | Some fld => ([Client.Print (Client.message (Spec.reason fld))], IO.SysExit)
  | None => Spec.render p
  end.
Proof.
intros H. unfold Client.process_packet.
rewrite when_reject.
replace (Py.len p <? 13) with false by (symmetry; apply Z.ltb_ge; lia).
rewrite (extract_fields p H).
cbn [IO.lift IO.bind app Client.rec_magic_num Client.rec_packet_type
     Client.rec_lang_code Client.rec_year Client.rec_month Client.rec_day
     Client.rec_hour Client.rec_min Client.rec_len].
rewrite !when_reject.
cbn [find Spec.check_order].
unfold Spec.in_range, Spec.value.
unfold Client.MAGIC_NUMBER, Client.DT_RES. cbn [existsb].
destruct (Spec.u16 p 0 =? 0x497E); cbn [negb]; [|reflexivity].
destruct (Spec.u16 p 2 =? 2); cbn [negb]; [|reflexivity].
rewrite orb_false_r, orb_assoc.
destruct ((Spec.u16 p 4 =? 1) || (Spec.u16 p 4 =? 2) || (Spec.u16 p 4 =? 3));
  cbn [negb]; [|reflexivity].
rewrite Z.geb_leb, Z.leb_antisym.
destruct (Spec.u16 p 6 <? 2100); cbn [negb]; [|reflexivity].
rewrite !Z.gtb_ltb, !Z.ltb_antisym, <- !negb_andb.
destruct ((1 <=? Spec.u8 p 8) && (Spec.u8 p 8 <=? 12)); cbn [negb];
  [|reflexivity].
destruct ((1 <=? Spec.u8 p 9) && (Spec.u8 p 9 <=? 31)); cbn [negb];
  [|reflexivity].
destruct ((0 <=? Spec.u8 p 10) && (Spec.u8 p 10 <=? 24)); cbn [negb];
  [|reflexivity].
destruct ((0 <=? Spec.u8 p 11) && (Spec.u8 p 11 <=? 60)); cbn [negb];
  [|reflexivity].
rewrite (Z.add_comm (Spec.u8 p 12) 13).
destruct (13 + Spec.u8 p 12 =? Py.len p); cbn [negb]; [|reflexivity].
rewrite format_type_str, format_date_str.
unfold Spec.render, Py.slice_from, IO.emit.
cbn [IO.lift IO.bind app].
destruct (Py.utf8_decode (skipn 13 p)) as [e|text]; cbn [IO.lift IO.bind app].
- reflexivity.
- rewrite format_text_str. reflexivity.
Qed.

End ClientFacts.

(** ** Properties of the client's decoder *)

Section DecoderProperties.

Lemma utf8_decode_raises b : forall pending acc lo e,
  Py.utf8_decode_from b pending acc lo = inl e -> e = Py.UnicodeDecodeError.
Proof.
induction b as [|x r IH]; intros pending acc lo e.
- destruct pending; cbn [Py.utf8_decode_from]; unfold Py.ret, Py.raise;
    congruence.
- destruct pending as [|n].
  + rewrite utf8_decode_lead.
    destruct ((0 <=? x) && (x <? 0x80)).
    { destruct (Py.utf8_decode_from r 0 0 0) eqn:E; cbn [Py.bind].
      - intros [= <-]. eapply IH, E.
      - discriminate. }
    destruct ((0xC0 <=? x) && (x <? 0xE0)); [apply IH|].
    destruct ((0xE0 <=? x) && (x <? 0xF0)); [apply IH|].
    destruct ((0xF0 <=? x) && (x <? 0xF8)); [apply IH|].
    unfold Py.raise. congruence.
  + cbn [Py.utf8_decode_from].
    destruct (Py.is_cont x); [|unfold Py.raise; congruence].
    destruct n; [|apply IH].
    match goal with |- (if ?c then _ else _) = _ -> _ => destruct c end;
      [|unfold Py.raise; congruence].
    destruct (Py.utf8_decode_from r 0 0 0) eqn:E; cbn [Py.bind].
    * intros [= <-]. eapply IH, E.
    * discriminate.
Qed.

Lemma reason_not_encoding fld : Spec.reason fld <> Client.InvalidEncoding.
Proof. destruct fld; discriminate. Qed.

Lemma rejected_as_field fld :
  Spec.rejected_as (Spec.reason fld)
    ([Client.Print (Client.message (Spec.reason fld))], IO.SysExit).
Proof. destruct fld; reflexivity. Qed.

Lemma message_inj r r' :
  r <> Client.InvalidEncoding -> r' <> Client.InvalidEncoding ->
  Client.message r = Client.message r' -> r = r'.
Proof.
intros Hr Hr' H.
destruct r; try congruence; destruct r'; try congruence;
  cbv in H; discriminate H.
Qed.

Lemma find_all_in_range p :
  (forall g, Spec.in_range g p = true) ->
  find (fun fld => negb (Spec.in_range fld p)) Spec.check_order = None.
Proof.
intros H. cbn [find Spec.check_order]. rewrite !H. reflexivity.
Qed.

Lemma find_first_out_of_range fld p :
  (forall g, g <> fld -> Spec.in_range g p = true) ->
  Spec.in_range fld p = false ->
  find (fun g => negb (Spec.in_range g p)) Spec.check_order = Some fld.
Proof.
intros H Hf. cbn [find Spec.check_order].
destruct fld; rewrite ?Hf; cbn [negb];
  repeat (rewrite H by discriminate; cbn [negb]);
  rewrite ?Hf; reflexivity.
Qed.

Lemma corrupted_out_of_range fld p :
  Spec.corrupted fld p -> Spec.in_range fld p = false.
Proof.
unfold Spec.corrupted, Spec.in_range.
destruct fld; intros H.
1, 2: apply Z.eqb_neq; exact H.
1: destruct H as [-> | ->]; reflexivity.
1: rewrite H; reflexivity.
1, 2: destruct H as [-> | ->]; reflexivity.
1, 2: rewrite H; reflexivity.
apply Z.eqb_neq. lia.
Qed.

Lemma boundary_in_range fld p :
  Spec.boundary fld p -> Spec.in_range fld p = true.
Proof.
unfold Spec.boundary, Spec.in_range.
destruct fld; intros H; try contradiction; rewrite H; reflexivity.
Qed.

Lemma accepted_in_range p :
  Spec.accepted (Client.process_packet p) ->
  13 <= Py.len p /\
  (forall g, Spec.in_range g p = true) /\
  Client.process_packet p = Spec.render p.
Proof.
unfold Spec.accepted. intros H.
destruct (Z.ltb_spec (Py.len p) 13) as [Hs|Hl].
{ rewrite process_packet_short in H by lia. discriminate H. }
split; [lia|].
rewrite (process_packet_checks p Hl) in *.
destruct (find _ Spec.check_order) as [fld|] eqn:F; [discriminate H|].
split; [|reflexivity].
intros g.
assert (In g Spec.check_order)
  by (destruct g; cbn [In Spec.check_order]; tauto).
pose proof (find_none _ _ F g H0) as N.
cbn beta in N. now apply negb_false_iff in N.
Qed.

End DecoderProperties.

(** C5: the decoder's checks run in one fixed order (length, magic number,
    packet type, language code, year, month, day, hour, minute, text length,
    text encoding) and the first one that fails decides the outcome: for
    every packet, what [process_packet] does is what the earliest failing
    check of that order prescribes, and it accepts exactly when none
    fails. *)
Theorem decoder_reports_first_failure (p : list Z) :
  match Spec.first_failure p with
  | Some r => Spec.rejected_as r (Client.process_packet p)
  | None => Spec.accepted (Client.process_packet p)
  end.
Proof.
unfold Spec.first_failure.
destruct (Z.ltb_spec (Py.len p) 13) as [Hs|Hl].
- rewrite process_packet_short by lia. reflexivity.
- rewrite (process_packet_checks p Hl).
  destruct (find _ Spec.check_order) as [fld|].
  + apply rejected_as_field.
  + unfold Spec.render.
    destruct (Py.utf8_decode (skipn 13 p)) as [e|text] eqn:D.
    * apply utf8_decode_raises in D. subst e. reflexivity.
    * reflexivity.
Qed.

(** A packet with a wrong packet type, month 13 and minute 61 is refused
    for its packet type. *)
Example several_invalid_fields :
  Client.process_packet [0x49; 0x7E; 0; 7; 0; 1; 7; 226; 13; 21; 9; 61; 0] =
  ([Client.Print (Client.message Client.WrongPacketType)], IO.SysExit).
Proof. vm_compute. reflexivity. Qed.

(** C2: a packet all of whose fields are valid but one, that one carrying
    one of the listed corruptions, is refused with the message of that
    field, and with no other reason. *)
Theorem single_corruption_rejected (fld : Spec.Field) (p : list Z) :
  Spec.valid_except fld p ->
  Spec.corrupted fld p ->
  Client.process_packet p =
    ([Client.Print (Client.message (Spec.reason fld))], IO.SysExit) /\
  forall r, Spec.rejected_as r (Client.process_packet p) ->
            r = Spec.reason fld.
Proof.
intros [Hl Hv] Hc.
assert (E : Client.process_packet p =
            ([Client.Print (Client.message (Spec.reason fld))], IO.SysExit)).
{ rewrite (process_packet_checks p Hl).
  rewrite (find_first_out_of_range fld p Hv (corrupted_out_of_range _ _ Hc)).
  reflexivity. }
split; [exact E|].
intros r Hr. rewrite E in Hr.
destruct (Client.RejectReason_eq_dec r Client.InvalidEncoding) as [->|Hn].
- discriminate Hr.
- apply message_inj; [exact Hn | apply reason_not_encoding |].
  destruct r; try congruence; cbn [Spec.rejected_as] in Hr; congruence.
Qed.

Lemma single_corruption_rejected_witness :
  Client.process_packet [0x49; 0x7E; 0; 2; 0; 1; 7; 226; 13; 21; 9; 5; 0] =
    ([Client.Print (Client.message Client.InvalidMonth)], IO.SysExit).
Proof.
apply (single_corruption_rejected Spec.Month
         [0x49; 0x7E; 0; 2; 0; 1; 7; 226; 13; 21; 9; 5; 0]).
- split.
  + vm_compute. discriminate.
  + intros g Hg. destruct g; reflexivity || congruence.
- right. reflexivity.
Defined.

(** Each listed corruption of one accepted packet, and the message it is
    refused with. *)
Example listed_corruptions :
  map Client.process_packet
    [ [0x49; 0x7F; 0; 2; 0; 1; 7; 226; 8; 21; 9; 5; 2; 104; 105];
      [0x49; 0x7E; 0; 1; 0; 1; 7; 226; 8; 21; 9; 5; 2; 104; 105];
      [0x49; 0x7E; 0; 2; 0; 0; 7; 226; 8; 21; 9; 5; 2; 104; 105];
      [0x49; 0x7E; 0; 2; 0; 4; 7; 226; 8; 21; 9; 5; 2; 104; 105];
      [0x49; 0x7E; 0; 2; 0; 1; 8; 52; 8; 21; 9; 5; 2; 104; 105];
      [0x49; 0x7E; 0; 2; 0; 1; 7; 226; 0; 21; 9; 5; 2; 104; 105];
      [0x49; 0x7E; 0; 2; 0; 1; 7; 226; 13; 21; 9; 5; 2; 104; 105];
      [0x49; 0x7E; 0; 2; 0; 1; 7; 226; 8; 0; 9; 5; 2; 104; 105];
      [0x49; 0x7E; 0; 2; 0; 1; 7; 226; 8; 32; 9; 5; 2; 104; 105];
      [0x49; 0x7E; 0; 2; 0; 1; 7; 226; 8; 21; 25; 5; 2; 104; 105];
      [0x49; 0x7E; 0; 2; 0; 1; 7; 226; 8; 21; 9; 61; 2; 104; 105];
      [0x49; 0x7E; 0; 2; 0; 1; 7; 226; 8; 21; 9; 5; 1; 104; 105];
      [0x49; 0x7E; 0; 2; 0; 1; 7; 226; 8; 21; 9; 5; 3; 104; 105] ] =
  map (fun r => ([Client.Print (Client.message r)], IO.SysExit))
    [ Client.BadMagic; Client.WrongPacketType; Client.InvalidLanguage;
      Client.InvalidLanguage; Client.InvalidYear; Client.InvalidMonth;
      Client.InvalidMonth; Client.InvalidDay; Client.InvalidDay;
      Client.InvalidHour; Client.InvalidMinute; Client.LengthMismatch;
      Client.LengthMismatch ].
Proof. vm_compute. reflexivity. Qed.

(** C6: a packet whose other fields are valid and whose text is UTF-8 is
    accepted when its hour is 24, its minute 60, its year 2099, its month
    12 or its day 31. *)
Theorem boundary_values_accepted (fld : Spec.Field) (p : list Z) :
  Spec.boundary fld p ->
  Spec.valid_except fld p ->
  (exists text, Py.utf8_decode (skipn 13 p) = inr text) ->
  Spec.accepted (Client.process_packet p).
Proof.
intros Hb [Hl Hv] [text Ht].
rewrite (process_packet_checks p Hl).
rewrite find_all_in_range.
- unfold Spec.render. rewrite Ht. reflexivity.
- intros g. destruct (Spec.Field_eq_dec g fld) as [->|Hn].
  + apply boundary_in_range, Hb.
  + apply Hv, Hn.
Qed.

Lemma boundary_values_accepted_witness :
  Spec.accepted
    (Client.process_packet
       [0x49; 0x7E; 0; 2; 0; 1; 7; 226; 8; 21; 24; 5; 2; 104; 105]).
Proof.
apply (boundary_values_accepted Spec.Hour
         [0x49; 0x7E; 0; 2; 0; 1; 7; 226; 8; 21; 24; 5; 2; 104; 105]).
- reflexivity.
- split.
  + vm_compute. discriminate.
  + intros g Hg. destruct g; reflexivity || congruence.
- exists [104; 105]. reflexivity.
Defined.

(** Hour 24, minute 60, year 2099, month 12 and day 31, each in an
    otherwise ordinary packet. *)
Example boundary_packets :
  map (fun p => IO.outcome (Client.process_packet p))
    [ [0x49; 0x7E; 0; 2; 0; 1; 7; 226; 8; 21; 24; 5; 2; 104; 105];
      [0x49; 0x7E; 0; 2; 0; 1; 7; 226; 8; 21; 9; 60; 2; 104; 105];
      [0x49; 0x7E; 0; 2; 0; 1; 8; 51; 8; 21; 9; 5; 2; 104; 105];
      [0x49; 0x7E; 0; 2; 0; 1; 7; 226; 12; 21; 9; 5; 2; 104; 105];
      [0x49; 0x7E; 0; 2; 0; 1; 7; 226; 8; 31; 9; 5; 2; 104; 105] ] =
  repeat (IO.Returned tt) 5.
Proof. vm_compute. reflexivity. Qed.

(** C10: for every accepted packet the second line printed is the date
    line, and the numbers it shows are the day (padded to four digits,
    which it fills exactly), the month and the year (each padded to two),
    in that order, followed by hour and minute. *)
Theorem date_line_is_day_month_year (p : list Z) :
  Spec.accepted (Client.process_packet p) ->
  (exists l1 l3,
     Client.process_packet p =
     ([Client.Print l1;
       Client.Print (Spec.date_line (Spec.value Spec.Day p)
                       (Spec.value Spec.Month p) (Spec.value Spec.Year p)
                       (Spec.value Spec.Hour p) (Spec.value Spec.Minute p));
       Client.Print l3], IO.Returned tt)) /\
  Py.len (Py.format_0d 4 (Spec.value Spec.Day p)) = 4 /\
  Py.len (Py.format_0d 2 (Spec.value Spec.Month p)) = 2.
Proof.
intros H.
destruct (accepted_in_range p H) as (Hl & Hr & E).
split.
- unfold Spec.accepted in H. rewrite E in *. unfold Spec.render in *.
  destruct (Py.utf8_decode (skipn 13 p)); [discriminate H|].
  eexists _, _. reflexivity.
- pose proof (Hr Spec.Day) as Hd. pose proof (Hr Spec.Month) as Hm.
  unfold Spec.in_range in Hd, Hm.
  apply andb_true_iff in Hd as [Hd1 Hd2].
  apply andb_true_iff in Hm as [Hm1 Hm2].
  apply Z.leb_le in Hd1, Hd2, Hm1, Hm2.
  split; [apply format_0d_4_len | apply format_0d_2_len]; lia.
Qed.

Lemma date_line_is_day_month_year_witness :
  exists l1 l3,
    Client.process_packet
      [0x49; 0x7E; 0; 2; 0; 1; 7; 226; 8; 21; 9; 5; 2; 104; 105] =
    ([Client.Print l1;
      Client.Print (Py.lit "[DATA] -- Date: 0021-08-2018" ++ [9; 9] ++
                    Py.lit "Time: 09:05");
      Client.Print l3], IO.Returned tt).
Proof.
apply (date_line_is_day_month_year
         [0x49; 0x7E; 0; 2; 0; 1; 7; 226; 8; 21; 9; 5; 2; 104; 105]).
reflexivity.
Defined.

(** ** The server's encoder *)

Section ServerFacts.

Lemma month_cases m :
  1 <= m <= 12 ->
  m = 1 \/ m = 2 \/ m = 3 \/ m = 4 \/ m = 5 \/ m = 6 \/
  m = 7 \/ m = 8 \/ m = 9 \/ m = 10 \/ m = 11 \/ m = 12.
Proof. lia. Qed.

Ltac split_month H :=
  apply month_cases in H;
  repeat (destruct H as [H|H]; [subst|]); [..|subst].

Ltac split_lang H :=
  cbn [In] in H;
  repeat (destruct H as [H|H]; [subst|]); [..|contradiction H].

Lemma text_of_date lang t :
  In lang [1; 2; 3] -> 1 <= month t <= 12 ->
  Server.text_of t 1 lang = inr (Spec.date_text lang t).
Proof.
destruct t as [y m d h mi]. cbn [month]. intros Hl Hm.
split_lang Hl; split_month Hm;
  cbv -[app Py.str_of_int Py.format_0d]; rewrite ?app_nil_r;
  cbn [app]; reflexivity.
Qed.

Lemma text_of_time lang t :
  In lang [1; 2; 3] ->
  Server.text_of t 2 lang = inr (Spec.time_text lang t).
Proof.
destruct t as [y m d h mi]. intros Hl.
split_lang Hl;
  cbv -[app Py.str_of_int Py.format_0d]; rewrite ?app_nil_r;
  cbn [app]; reflexivity.
Qed.

Lemma text_of_localized kind lang t :
  In kind [1; 2] -> In lang [1; 2; 3] -> 1 <= month t <= 12 ->
  Server.text_of t kind lang = inr (Spec.localized_text kind lang t).
Proof.
intros Hk Hl Hm. unfold Spec.localized_text.
cbn [In] in Hk. destruct Hk as [<-|[<-|[]]]; cbn [Z.eqb Pos.eqb].
- apply text_of_date; assumption.
- apply text_of_time; assumption.
Qed.

(** A request type that is neither date nor time leaves the text empty. *)
Lemma text_of_other kind lang t :
  kind <> 1 -> kind <> 2 -> Server.text_of t kind lang = inr [].
Proof.
intros H1 H2. unfold Server.text_of, Server.REQ_DATE, Server.REQ_TIME.
apply Z.eqb_neq in H1, H2. rewrite H1, H2. reflexivity.
Qed.

Lemma month_name_facts lang m :
  In lang [1; 2; 3] -> 1 <= m <= 12 ->
  forallb Py.scalarb (Spec.month_name lang m) = true /\
  Py.len (Spec.month_name lang m) <= 16.
Proof.
intros Hl Hm.
split_lang Hl; split_month Hm; split; vm_compute; congruence.
Qed.

Lemma localized_text_facts kind lang t :
  In kind [1; 2] -> In lang [1; 2; 3] ->
  0 <= year t < 2100 -> 1 <= month t <= 12 -> 1 <= day t <= 31 ->
  0 <= hour t <= 23 -> 0 <= minute t <= 59 ->
  forallb Py.scalarb (Spec.localized_text kind lang t) = true /\
  Py.len (Spec.localized_text kind lang t) <= 63.
Proof.
intros Hk Hl Hy Hm Hd Hh Hmi.
destruct (month_name_facts lang (month t) Hl Hm) as [Ns Nl].
pose proof (str_of_int_len_2 (day t)) as Ld.
pose proof (str_of_int_len_4 (year t)) as Ly.
pose proof (format_0d_2_len (hour t)) as Lh.
pose proof (format_0d_2_len (minute t)) as Lmi.
unfold Spec.localized_text, Spec.date_text, Spec.time_text.
cbn [In] in Hk. destruct Hk as [<-|[<-|[]]]; cbn [Z.eqb Pos.eqb];
  split_lang Hl; cbn [Z.eqb Pos.eqb]; split;
  rewrite ?forallb_app, ?len_app, ?Ns, ?str_of_int_scalar, ?format_0d_scalar;
  try reflexivity;
  repeat match goal with
         | |- context [Py.len (Py.lit ?s)] =>
           let n := eval vm_compute in (Py.len (Py.lit s)) in
           change (Py.len (Py.lit s)) with n
         end;
  lia.
Qed.

Lemma bytearray_13 n :
  Py.bytearray (Z.to_nat (13 + Z.of_nat n)) =
  [0; 0; 0; 0; 0; 0; 0; 0; 0; 0; 0; 0; 0] ++ repeat 0 n.
Proof.
unfold Py.bytearray.
replace (Z.to_nat (13 + Z.of_nat n)) with (13 + n)%nat by lia.
rewrite repeat_app. reflexivity.
Qed.

(** The packet [create_packet] builds: the header, then the encoded
    text. *)
Lemma create_packet_layout t kind lang text enc :
  Server.text_of t kind lang = inr text ->
  Py.utf8_encode text = inr enc ->
  forallb Py.is_byteb enc = true ->
  Py.len enc < 256 ->
  0 <= lang < 65536 -> 0 <= year t < 65536 ->
  0 <= month t < 256 -> 0 <= day t < 256 ->
  0 <= hour t < 256 -> 0 <= minute t < 256 ->
  Server.create_packet t kind lang =
  inr ([0x49; 0x7E; 0; 2; lang / 256; lang mod 256;
        year t / 256; year t mod 256;
        month t; day t; hour t; minute t; Py.len enc] ++ enc).
Proof.
intros Ht He Hb Hn Hl Hy Hm Hd Hh Hmi.
unfold Server.create_packet. rewrite Ht. cbn [Py.bind]. rewrite He.
cbn [Py.bind]. unfold Py.len at 1. rewrite bytearray_13.
change (Py.to_bytes2_big Server.MAGIC_NUMBER) with (@inr Py.Exc _ [0x49; 0x7E]).
change (Py.to_bytes2_big Server.DT_RES) with (@inr Py.Exc _ [0; 2]).
rewrite (to_bytes2_big_ok lang Hl), (to_bytes2_big_ok (year t) Hy).
destruct (two_bytes_range lang Hl) as [Hl1 Hl2].
destruct (two_bytes_range (year t) Hy) as [Hy1 Hy2].
pose proof (len_nonneg enc) as Hn0.
unfold Py.set_slice, Py.set_slice_from, Py.set_index.
cbn [Py.bind forallb app firstn skipn Nat.max List.length Nat.ltb Nat.leb].
rewrite ?is_byteb_true by assumption.
cbn [andb Py.bind Py.ret app firstn skipn Nat.max List.length Nat.ltb Nat.leb forallb].
rewrite ?is_byteb_true by assumption.
cbn [andb Py.bind Py.ret app firstn skipn Nat.max List.length Nat.ltb Nat.leb forallb].
rewrite ?is_byteb_true by assumption.
cbn [andb Py.bind Py.ret app firstn skipn Nat.max List.length Nat.ltb Nat.leb forallb].
rewrite ?is_byteb_true by lia.
cbn [andb Py.bind Py.ret app firstn skipn Nat.max List.length Nat.ltb Nat.leb forallb].
rewrite Hb.
reflexivity.
Qed.

End ServerFacts.

(** ** Round trip of a response *)

(** C1: for a date or time request, a language code of 1, 2 or 3 and a
    clock reading within the stated ranges, the server builds a packet; the
    client reads back from it the language code, year, month, day, hour and
    minute, decodes its text to the localized sentence, accepts it and
    prints that sentence. *)
Theorem response_round_trip (kind lang : Z) (t : DateTime) :
  In kind [1; 2] -> In lang [1; 2; 3] ->
  0 <= year t < 2100 -> 1 <= month t <= 12 -> 1 <= day t <= 31 ->
  0 <= hour t <= 23 -> 0 <= minute t <= 59 ->
  exists packet,
    Server.create_packet t kind lang = inr packet /\
    Client.extract packet =
      inr (Client.mkFields 0x497E 2 lang (year t) (month t) (day t)
             (hour t) (minute t) (Py.len packet - 13)) /\
    Py.utf8_decode (skipn 13 packet) =
      inr (Spec.localized_text kind lang t) /\
    Client.process_packet packet =
      ([Client.Print (Spec.type_line 0x497E 2 lang);
        Client.Print (Spec.date_line (day t) (month t) (year t) (hour t)
                        (minute t));
        Client.Print (Spec.text_line (Spec.localized_text kind lang t))],
       IO.Returned tt).
Proof.
intros Hk Hl Hy Hm Hd Hh Hmi.
destruct (localized_text_facts kind lang t Hk Hl Hy Hm Hd Hh Hmi) as [Ts Tl].
destruct (utf8_encode_ok _ Ts) as (enc & He & Hb & Hn).
assert (Hlang : 0 <= lang < 65536)
  by (cbn [In] in Hl; lia).
assert (Hlang' : lang / 256 = 0 /\ lang mod 256 = lang)
  by (cbn [In] in Hl; split; Z.div_mod_to_equations; lia).
destruct Hlang' as [Hq Hr].
pose proof (create_packet_layout t kind lang _ enc
              (text_of_localized kind lang t Hk Hl Hm) He Hb) as E.
rewrite Hq, Hr in E.
set (packet := [0x49; 0x7E; 0; 2; 0; lang; year t / 256; year t mod 256;
                month t; day t; hour t; minute t; Py.len enc] ++ enc) in *.
assert (Hlen : Py.len packet = 13 + Py.len enc)
  by (unfold packet; rewrite len_app; reflexivity).
pose proof (len_nonneg enc) as Hn0.
assert (Hdec : Py.utf8_decode (skipn 13 packet) =
               inr (Spec.localized_text kind lang t))
  by (apply utf8_round_trip; exact He).
assert (Hu16 : Spec.u16 packet 0 = 0x497E /\ Spec.u16 packet 2 = 2 /\
               Spec.u16 packet 4 = lang /\ Spec.u16 packet 6 = year t).
{ unfold Spec.u16, Spec.u8, packet. cbn [nth app].
  rewrite two_bytes_value. repeat split; lia. }
destruct Hu16 as (U0 & U2 & U4 & U6).
exists packet. split; [apply E; lia|].
split; [|split; [exact Hdec|]].
- rewrite extract_fields by lia. rewrite U0, U2, U4, U6, Hlen.
  unfold Spec.u8, packet. cbn [nth app].
  replace (13 + Py.len enc - 13) with (Py.len enc) by lia. reflexivity.
- rewrite process_packet_checks by lia.
  rewrite find_all_in_range.
  + unfold Spec.render. rewrite Hdec, U0, U2, U4, U6.
    unfold Spec.u8, packet. cbn [nth app]. reflexivity.
  + intros g. unfold Spec.in_range, Spec.value.
    destruct g; rewrite ?U0, ?U2, ?U4, ?U6, ?Hlen;
      try reflexivity;
      unfold Spec.u8, packet; cbn [nth app].
    * cbn [In] in Hl. destruct Hl as [<-|[<-|[<-|[]]]]; reflexivity.
    * tests. reflexivity.
    * tests. reflexivity.
    * tests. reflexivity.
    * tests. reflexivity.
    * tests. reflexivity.
    * apply Z.eqb_refl.
Qed.

Lemma response_round_trip_witness :
  exists packet,
    Server.create_packet (mkDateTime 2018 8 21 9 5) 1 3 = inr packet /\
    Client.extract packet =
      inr (Client.mkFields 0x497E 2 3 2018 8 21 9 5 (Py.len packet - 13)) /\
    Py.utf8_decode (skipn 13 packet) =
      inr (Py.lit "Heute ist der 21. August 2018") /\
    Client.process_packet packet =
      ([Client.Print (Spec.type_line 0x497E 2 3);
        Client.Print (Spec.date_line 21 8 2018 9 5);
        Client.Print (Py.lit "[DATA] -- Text: Heute ist der 21. August 2018")],
       IO.Returned tt).
Proof.
apply (response_round_trip 1 3 (mkDateTime 2018 8 21 9 5));
  cbn [In year month day hour minute]; (tauto || lia).
Defined.

(** The sentences of the three languages on one date and time. *)
Example localized_examples :
  let t := mkDateTime 2018 3 7 9 5 in
  Server.text_of t 1 1 = inr (Py.lit "Today's date is March 7, 2018") /\
  Server.text_of t 1 2 =
    inr (Py.lit "Ko te ra o tenei ra ko Pout" ++ [0x16B] ++
         Py.lit "-te-rangi 7, 2018") /\
  Server.text_of t 1 3 =
    inr (Py.lit "Heute ist der 7. M" ++ [0xE4] ++ Py.lit "rz 2018") /\
  Server.text_of t 2 1 = inr (Py.lit "The current time is 09:05") /\
  Server.text_of t 2 2 = inr (Py.lit "Ko te wa o tenei wa 09:05") /\
  Server.text_of t 2 3 = inr (Py.lit "Die Uhrzeit ist 09:05").
Proof. vm_compute. repeat split. Qed.

(** ** The server's handling of requests *)

Section RequestFacts.

Lemma request_shape (p : list Z) :
  Py.len p = 6 -> exists b0 b1 b2 b3 b4 b5, p = [b0; b1; b2; b3; b4; b5].
Proof.
intros H. unfold Py.len in H.
do 6 (destruct p as [|? p]; [cbn [List.length] in H; lia|]).
destruct p; [|cbn [List.length] in H; lia].
repeat eexists.
Qed.

(** A request that fails to decode is logged and yields [None]. *)
Lemma process_packet_bad p addr :
  Spec.bad_request p ->
  exists alert,
    Server.process_packet p addr = ([alert], IO.Returned None) /\
    Spec.responses [alert] = [].
Proof.
intros H. unfold Server.process_packet.
destruct (Z.eqb_spec (Py.len p) 6) as [L|L]; cbn [negb].
2: { eexists. split; reflexivity. }
destruct (request_shape p L) as (b0 & b1 & b2 & b3 & b4 & b5 & ->).
unfold Spec.bad_request, Spec.u16, Spec.u8 in H. cbn [nth] in H.
unfold Py.slice. cbn [skipn firstn Nat.sub].
rewrite !from_bytes_big_2. unfold Server.MAGIC_NUMBER, Server.DT_REQ.
destruct (Z.eqb_spec (256 * b0 + b1) 0x497E); cbn [negb].
2: { eexists. split; reflexivity. }
destruct (Z.eqb_spec (256 * b2 + b3) 1); cbn [negb].
2: { eexists. split; reflexivity. }
intuition congruence.
Qed.


Lemma responses_app a b :
  Spec.responses (a ++ b) = Spec.responses a ++ Spec.responses b.
Proof. unfold Spec.responses. apply flat_map_app. Qed.


(** The response to a request type that is neither date nor time is a
    bare header with a text length of zero. *)
Lemma unknown_kind_empty_text t kind lang :
  kind <> 1 -> kind <> 2 ->
  0 <= lang < 65536 -> 0 <= year t < 65536 ->
  0 <= month t < 256 -> 0 <= day t < 256 ->
  0 <= hour t < 256 -> 0 <= minute t < 256 ->
  Server.create_packet t kind lang =
  inr [0x49; 0x7E; 0; 2; lang / 256; lang mod 256;
       year t / 256; year t mod 256;
       month t; day t; hour t; minute t; 0].
Proof.
intros H1 H2 Hl Hy Hm Hd Hh Hmi.
rewrite (create_packet_layout t kind lang [] []);
  try assumption; try reflexivity.
apply text_of_other; assumption.
Qed.

End RequestFacts.

(** C7: when the datagram read in an iteration fails to decode as a Request
    (wrong length, magic number or packet type), the iteration sends
    nothing and ends normally, and the loop goes on with the following
    returns of [select] as if the datagram had not come. *)
Theorem bad_request_gets_no_response
    (languages : Dict Z) (tick : Server.Tick) (sock : Server.Readable)
    (others : list Server.Readable) (rest : list Server.Tick) :
  Server.readable tick = sock :: others ->
  Spec.bad_request (Server.received_packet sock) ->
  Spec.responses (IO.trace (Server.iteration languages tick)) = [] /\
  IO.outcome (Server.iteration languages tick) = IO.Returned tt /\
  Spec.responses (IO.trace (Server.listen languages (tick :: rest))) =
    Spec.responses (IO.trace (Server.listen languages rest)) /\
  IO.outcome (Server.listen languages (tick :: rest)) =
    IO.outcome (Server.listen languages rest).
Proof.
intros Hr Hb.
destruct (process_packet_bad _ (Server.sender sock) Hb) as (alert & E & R).
assert (I : Server.iteration languages tick = ([alert], IO.Returned tt)).
{ unfold Server.iteration. rewrite Hr, E. reflexivity. }
cbn [Server.listen]. rewrite I.
destruct (Server.listen languages rest) as [tr o].
cbn [IO.bind IO.trace IO.outcome fst snd].
rewrite responses_app, R. repeat split.
Qed.

Lemma bad_request_gets_no_response_witness :
  Spec.responses
    (IO.trace
       (Server.iteration [(5001, 1); (5002, 2); (5003, 3)]
          (Server.mkTick
             [Server.mkReadable 5001 [0xFF; 0xFF; 0; 1; 0; 2]
                (Py.lit "10.0.0.7", 40000)]
             (mkDateTime 2018 8 21 9 5)))) = [].
Proof.
apply (bad_request_gets_no_response [(5001, 1); (5002, 2); (5003, 3)]
         (Server.mkTick
            [Server.mkReadable 5001 [0xFF; 0xFF; 0; 1; 0; 2]
               (Py.lit "10.0.0.7", 40000)]
            (mkDateTime 2018 8 21 9 5))
         (Server.mkReadable 5001 [0xFF; 0xFF; 0; 1; 0; 2]
            (Py.lit "10.0.0.7", 40000)) [] []).
- reflexivity.
- right. left. vm_compute. discriminate.
Defined.

(** C4, evaluated where the code departs from it: the request
    [49 7E 00 01 01 00] has magic number 0x497E and packet type 1, and its
    16-bit request kind is 256; [process_packet] returns 0, the value of
    the last byte alone. *)
Theorem request_kind_read_from_last_byte (addr : Addr) :
  let p := [0x49; 0x7E; 0; 1; 1; 0] in
  ~ Spec.bad_request p /\
  Spec.request_kind p = 256 /\
  Server.process_packet p addr = ([], IO.Returned (Some 0)).
Proof.
cbv zeta. split; [|split; reflexivity].
unfold Spec.bad_request. vm_compute. intuition congruence.
Qed.

(** C3, evaluated where the code departs from it: the request
    [49 7E 00 01 00 00] is structurally valid and its request kind is 0,
    neither date nor time; the iteration that reads it sends nothing. *)
Theorem zero_request_kind_gets_no_response
    (languages : Dict Z) (port : Z) (addr : Addr)
    (others : list Server.Readable) (t : DateTime) :
  let p := [0x49; 0x7E; 0; 1; 0; 0] in
  ~ Spec.bad_request p /\
  Spec.request_kind p = 0 /\
  Server.iteration languages
    (Server.mkTick (Server.mkReadable port p addr :: others) t) =
  ([], IO.Returned tt).
Proof.
cbv zeta. split; [|split; reflexivity].
unfold Spec.bad_request. vm_compute. intuition congruence.
Qed.

(** ** The client's request and its socket *)

Section ExchangeFacts.

Lemma str_eqb_false a b : a <> b -> Client.str_eqb a b = false.
Proof.
intros H. unfold Client.str_eqb.
destruct (list_eq_dec Z.eq_dec a b); [contradiction|reflexivity].
Qed.

Lemma str_eqb_refl a : Client.str_eqb a a = true.
Proof.
unfold Client.str_eqb.
destruct (list_eq_dec Z.eq_dec a a); [reflexivity|contradiction].
Qed.

Lemma packet_create_date :
  Client.packet_create (Py.lit "date") = inr [0x49; 0x7E; 0; 1; 0; 1].
Proof. reflexivity. Qed.

Lemma packet_create_time :
  Client.packet_create (Py.lit "time") = inr [0x49; 0x7E; 0; 1; 0; 2].
Proof. reflexivity. Qed.

Lemma packet_create_other req_type :
  req_type <> Py.lit "date" -> req_type <> Py.lit "time" ->
  Client.packet_create req_type = inr [0x49; 0x7E; 0; 1; 0; 0].
Proof.
intros Hd Ht. unfold Client.packet_create.
rewrite (str_eqb_false _ _ Hd), (str_eqb_false _ _ Ht). reflexivity.
Qed.

Lemma packet_create_total req_type :
  exists p, Client.packet_create req_type = inr p.
Proof.
destruct (list_eq_dec Z.eq_dec req_type (Py.lit "date")) as [->|Hd].
{ eexists. apply packet_create_date. }
destruct (list_eq_dec Z.eq_dec req_type (Py.lit "time")) as [->|Ht].
{ eexists. apply packet_create_time. }
eexists. apply packet_create_other; assumption.
Qed.

Lemma socket_is_open_app a b o :
  Client.socket_is_open (a ++ b) o =
  Client.socket_is_open b (Client.socket_is_open a o).
Proof.
revert o. induction a as [|e a IH]; intros o; cbn [app Client.socket_is_open].
- reflexivity.
- destruct e; apply IH.
Qed.

(** [process_packet] prints and does nothing else. *)
Lemma process_packet_only_prints p o :
  Client.socket_is_open (IO.trace (Client.process_packet p)) o = o.
Proof.
destruct (Z.ltb_spec (Py.len p) 13) as [Hs|Hl].
- rewrite process_packet_short by lia. reflexivity.
- rewrite (process_packet_checks p Hl).
  destruct (find _ Spec.check_order); [reflexivity|].
  unfold Spec.render. destruct (Py.utf8_decode (skipn 13 p)); reflexivity.
Qed.

(** When a datagram arrives the socket is closed before the datagram is
    examined, so it is closed however the examination ends. *)
Lemma socket_closed_after_arrival req_type host_addr host_port data addr :
  let run := Client.main (Client.mkNet true (Some (data, addr)))
               req_type host_addr host_port in
  Client.socket_is_open (IO.trace run) false = false.
Proof.
cbv zeta. unfold Client.main.
destruct (packet_create_total req_type) as [tx E]. rewrite E.
unfold Client.socket_open. cbn [Client.socket_ok Client.arrival].
cbn [IO.lift IO.bind IO.emit IO.ret app fst snd].
destruct (Client.process_packet data) as [tr o] eqn:P.
pose proof (process_packet_only_prints data false) as H.
rewrite P in H. cbn [IO.trace fst] in H.
cbn [IO.trace fst Client.socket_is_open].
exact H.
Qed.

End ExchangeFacts.

(** C9: for a request type other than ["date"] and ["time"] the client
    still builds a packet: six bytes, with the magic number, packet type 1
    and a request kind of zero. *)
Theorem unknown_type_builds_zero_request (req_type : list Z) :
  req_type <> Py.lit "date" -> req_type <> Py.lit "time" ->
  exists packet,
    Client.packet_create req_type = inr packet /\
    Py.len packet = 6 /\
    Spec.u16 packet 0 = 0x497E /\
    Spec.u16 packet 2 = 1 /\
    Spec.request_kind packet = 0.
Proof.
intros Hd Ht. exists [0x49; 0x7E; 0; 1; 0; 0].
split; [apply packet_create_other; assumption|].
repeat split.
Qed.

Lemma unknown_type_builds_zero_request_witness :
  exists packet,
    Client.packet_create (Py.lit "year") = inr packet /\
    Py.len packet = 6 /\
    Spec.u16 packet 0 = 0x497E /\
    Spec.u16 packet 2 = 1 /\
    Spec.request_kind packet = 0.
Proof.
apply (unknown_type_builds_zero_request (Py.lit "year"));
  vm_compute; discriminate.
Defined.

(** C8, evaluated where the code departs from it: when no datagram arrives
    before the timeout, [socket_open] ends in [sys.exit()] with the socket
    created and not closed. *)
Theorem timeout_leaves_socket_open
    (host_addr : list Z) (port_num : Z) (transmit_packet : list Z) :
  let run := Client.socket_open (Client.mkNet true None) host_addr port_num
               transmit_packet in
  IO.outcome run = IO.SysExit /\
  ~ In Client.SockClose (IO.trace run) /\
  Client.socket_is_open (IO.trace run) false = true.
Proof.
cbv zeta. cbn. split; [reflexivity|]. split; [|reflexivity].
intros [H|[H|[H|[H|[]]]]]; discriminate H.
Qed.

(** ** Further properties of the client's decoder *)

(** The client accepts a packet exactly when it has a 13-byte header whose
    magic number is 0x497E, packet type 2, language code 1, 2 or 3, year
    below 2100, month in 1..12, day in 1..31, hour at most 24 and minute at
    most 60 (neither below zero), whose length byte plus 13 is the length
    of the packet, and whose remaining bytes are UTF-8. *)
Theorem accepted_iff_well_formed (p : list Z) :
  Spec.accepted (Client.process_packet p) <->
  exists f text,
    Client.extract p = inr f /\
    Client.rec_magic_num f = 0x497E /\
    Client.rec_packet_type f = 2 /\
    In (Client.rec_lang_code f) [1; 2; 3] /\
    Client.rec_year f < 2100 /\
    1 <= Client.rec_month f <= 12 /\
    1 <= Client.rec_day f <= 31 /\
    0 <= Client.rec_hour f <= 24 /\
    0 <= Client.rec_min f <= 60 /\
    Client.rec_len f + 13 = Py.len p /\
    Py.utf8_decode (skipn 13 p) = inr text.
Proof.
split.
- intros H. destruct (accepted_in_range p H) as (Hl & Hr & E).
  unfold Spec.accepted in H. rewrite E in H. unfold Spec.render in H.
  destruct (Py.utf8_decode (skipn 13 p)) as [e|text] eqn:D; [discriminate H|].
  eexists _, text. split; [apply extract_fields; exact Hl|].
  cbn [Client.rec_magic_num Client.rec_packet_type Client.rec_lang_code
       Client.rec_year Client.rec_month Client.rec_day Client.rec_hour
       Client.rec_min Client.rec_len].
  pose proof (Hr Spec.MagicNumber) as R0. pose proof (Hr Spec.PacketType) as R1.
  pose proof (Hr Spec.LanguageCode) as R2. pose proof (Hr Spec.Year) as R3.
  pose proof (Hr Spec.Month) as R4. pose proof (Hr Spec.Day) as R5.
  pose proof (Hr Spec.Hour) as R6. pose proof (Hr Spec.Minute) as R7.
  pose proof (Hr Spec.TextLength) as R8.
  unfold Spec.in_range, Spec.value in *.
  apply Z.eqb_eq in R0, R1, R8. apply Z.ltb_lt in R3.
  apply andb_true_iff in R4 as [R4 R4'], R5 as [R5 R5'], R6 as [R6 R6'],
    R7 as [R7 R7'].
  apply Z.leb_le in R4, R4', R5, R5', R6, R6', R7, R7'.
  apply orb_true_iff in R2 as [R2|R2];
    [apply orb_true_iff in R2 as [R2|R2]|]; apply Z.eqb_eq in R2;
    cbn [In]; repeat split; try lia; tauto.
- intros (f & text & Ef & H0 & H1 & H2 & H3 & H4 & H5 & H6 & H7 & H8 & D).
  destruct (Z.ltb_spec (Py.len p) 13) as [Hs|Hl].
  { exfalso. exact (extract_short p f Hs Ef). }
  rewrite (extract_fields p Hl) in Ef. apply inr_inj in Ef. subst f.
  cbn [Client.rec_magic_num Client.rec_packet_type Client.rec_lang_code
       Client.rec_year Client.rec_month Client.rec_day Client.rec_hour
       Client.rec_min Client.rec_len] in *.
  unfold Spec.accepted. rewrite (process_packet_checks p Hl).
  rewrite find_all_in_range.
  + unfold Spec.render. rewrite D. reflexivity.
  + intros g. unfold Spec.in_range, Spec.value.
    destruct g; rewrite ?H0, ?H1; try reflexivity; tests; try reflexivity.
    * cbn [In] in H2. destruct H2 as [<-|[<-|[<-|[]]]]; reflexivity.
    * apply Z.eqb_eq. lia.
Qed.

(** The only exception [process_packet] lets escape is the
    [UnicodeDecodeError] of the text; it comes after the two header lines
    have been printed, and no index is ever out of range. *)
Theorem process_packet_raises_only_decode_error (p : list Z) (e : Py.Exc) :
  IO.outcome (Client.process_packet p) = IO.Raised e ->
  e = Py.UnicodeDecodeError /\
  13 <= Py.len p /\
  IO.trace (Client.process_packet p) =
    [Client.Print (Spec.type_line 0x497E 2 (Spec.value Spec.LanguageCode p));
     Client.Print (Spec.date_line (Spec.value Spec.Day p)
                     (Spec.value Spec.Month p) (Spec.value Spec.Year p)
                     (Spec.value Spec.Hour p) (Spec.value Spec.Minute p))].
Proof.
intros H.
destruct (Z.ltb_spec (Py.len p) 13) as [Hs|Hl].
{ rewrite process_packet_short in H by lia. discriminate H. }
rewrite (process_packet_checks p Hl) in *.
destruct (find _ Spec.check_order) as [fld|] eqn:F; [discriminate H|].
assert (R : forall g, Spec.in_range g p = true).
{ intros g.
  assert (I : In g Spec.check_order)
    by (destruct g; cbn [In Spec.check_order]; tauto).
  pose proof (find_none _ _ F g I) as N. cbn beta in N.
  now apply negb_false_iff in N. }
pose proof (R Spec.MagicNumber) as R0. pose proof (R Spec.PacketType) as R1.
unfold Spec.in_range, Spec.value in R0, R1. apply Z.eqb_eq in R0, R1.
unfold Spec.render in *.
destruct (Py.utf8_decode (skipn 13 p)) as [e'|text] eqn:D; [|discriminate H].
cbn [IO.outcome snd] in H. assert (e' = e) by congruence. subst e'.
apply utf8_decode_raises in D. subst e.
split; [reflexivity|]. split; [exact Hl|].
cbn [IO.trace fst Spec.value]. rewrite R0, R1. reflexivity.
Qed.

Lemma process_packet_raises_only_decode_error_witness :
  IO.trace
    (Client.process_packet
       [0x49; 0x7E; 0; 2; 0; 1; 7; 226; 8; 21; 9; 5; 1; 200]) =
  [Client.Print (Spec.type_line 0x497E 2 1);
   Client.Print (Spec.date_line 21 8 2018 9 5)].
Proof.
apply (process_packet_raises_only_decode_error
         [0x49; 0x7E; 0; 2; 0; 1; 7; 226; 8; 21; 9; 5; 1; 200]
         Py.UnicodeDecodeError).
reflexivity.
Defined.

(** An accepted packet is shown in three lines: the magic number in
    hexadecimal, the packet type and the language code; the date and time
    numbers; and the text, which is the UTF-8 reading of all bytes after
    the header. *)
Theorem accepted_packet_rendering (p : list Z) :
  Spec.accepted (Client.process_packet p) ->
  exists text,
    Py.utf8_decode (skipn 13 p) = inr text /\
    In (Spec.value Spec.LanguageCode p) [1; 2; 3] /\
    Client.process_packet p =
    ([Client.Print
        (Py.lit "[DATA] -- Magic Number: 0x497e" ++ [9; 9] ++
         Py.lit "Packet type: 2" ++ [9; 9] ++ Py.lit "Language code: " ++
         Py.str_of_int (Spec.value Spec.LanguageCode p));
      Client.Print (Spec.date_line (Spec.value Spec.Day p)
                      (Spec.value Spec.Month p) (Spec.value Spec.Year p)
                      (Spec.value Spec.Hour p) (Spec.value Spec.Minute p));
      Client.Print (Py.lit "[DATA] -- Text: " ++ text)], IO.Returned tt).
Proof.
intros H.
destruct (proj1 (accepted_iff_well_formed p) H)
  as (f & text & Ef & H0 & H1 & H2 & _ & _ & _ & _ & _ & _ & D).
destruct (accepted_in_range p H) as (Hl & _ & E).
rewrite (extract_fields p Hl) in Ef. apply inr_inj in Ef. subst f.
cbn [Client.rec_magic_num Client.rec_packet_type Client.rec_lang_code]
  in H0, H1, H2.
exists text. split; [exact D|]. split; [exact H2|].
rewrite E. unfold Spec.render. rewrite D, H0, H1.
unfold Spec.type_line, Spec.text_line, Spec.value.
change (Py.hex 0x497E) with (Py.lit "0x497e").
change (Py.str_of_int 2) with (Py.lit "2").
reflexivity.
Qed.

Lemma accepted_packet_rendering_witness :
  exists text,
    Py.utf8_decode [104; 105] = inr text /\
    In 1 [1; 2; 3] /\
    Client.process_packet
      [0x49; 0x7E; 0; 2; 0; 1; 7; 226; 8; 21; 9; 5; 2; 104; 105] =
    ([Client.Print
        (Py.lit "[DATA] -- Magic Number: 0x497e" ++ [9; 9] ++
         Py.lit "Packet type: 2" ++ [9; 9] ++ Py.lit "Language code: 1");
      Client.Print (Spec.date_line 21 8 2018 9 5);
      Client.Print (Py.lit "[DATA] -- Text: " ++ text)], IO.Returned tt).
Proof.
apply (accepted_packet_rendering
         [0x49; 0x7E; 0; 2; 0; 1; 7; 226; 8; 21; 9; 5; 2; 104; 105]).
reflexivity.
Defined.

Lemma accepted_iff_well_formed_witness :
  Spec.accepted
    (Client.process_packet
       [0x49; 0x7E; 0; 2; 0; 3; 7; 226; 8; 21; 9; 5; 2; 104; 105]).
Proof.
apply (proj2 (accepted_iff_well_formed
                [0x49; 0x7E; 0; 2; 0; 3; 7; 226; 8; 21; 9; 5; 2; 104; 105])).
eexists _, [104; 105]. split; [reflexivity|].
cbn [Client.rec_magic_num Client.rec_packet_type Client.rec_lang_code
     Client.rec_year Client.rec_month Client.rec_day Client.rec_hour
     Client.rec_min Client.rec_len In].
repeat split; try lia; try reflexivity; tauto.
Defined.

(** ** Further properties of the server's encoder *)

Section EncoderFacts.

Lemma utf8_encode_char_bytes c bs :
  Py.utf8_encode_char c = inr bs -> forallb Py.is_byteb bs = true.
Proof.
intros H.
assert (S : Py.scalarb c = true).
{ unfold Py.utf8_encode_char, Py.is_surrogate in H.
  unfold Py.scalarb, Py.is_surrogate.
  destruct (Z.ltb_spec c 0); [discriminate H|].
  destruct (Z.ltb_spec c 0x80); [tests; reflexivity|].
  destruct (Z.ltb_spec c 0x800); [tests; reflexivity|].
  destruct (Z.leb_spec 0xD800 c); destruct (Z.leb_spec c 0xDFFF);
    cbn [andb] in H; try discriminate H;
    destruct (Z.ltb_spec c 0x10000); try (tests; reflexivity);
    destruct (Z.ltb_spec c 0x110000); try discriminate H;
    tests; reflexivity. }
destruct (utf8_encode_char_ok c S) as (bs' & E & B & _).
rewrite E in H. apply inr_inj in H. subst bs'. exact B.
Qed.

Lemma utf8_encode_bytes s : forall b,
  Py.utf8_encode s = inr b -> forallb Py.is_byteb b = true.
Proof.
induction s as [|c s IH]; intros b; cbn [Py.utf8_encode].
- intros E%inr_inj. subst b. reflexivity.
- destruct (Py.utf8_encode_char c) as [e|bc] eqn:Ec; [discriminate|].
  destruct (Py.utf8_encode s) as [e|bs] eqn:Es; [discriminate|].
  cbn [Py.bind]. intros E%inr_inj. subst b.
  rewrite forallb_app. apply andb_true_iff. split.
  + eapply utf8_encode_char_bytes, Ec.
  + apply IH. reflexivity.
Qed.

Lemma is_byteb_range b : Py.is_byteb b = true -> 0 <= b < 256.
Proof.
unfold Py.is_byteb. intros H. apply andb_true_iff in H as [H1 H2].
apply Z.leb_le in H1. apply Z.ltb_lt in H2. lia.
Qed.

End EncoderFacts.
Section EncoderInversion.

Lemma set_slice_ok l i j v :
  forallb Py.is_byteb v = true ->
  Py.set_slice l i j v = inr (firstn i l ++ v ++ skipn (Nat.max i j) l).
Proof. intros H. unfold Py.set_slice. rewrite H. reflexivity. Qed.

Lemma set_slice_bad l i j v :
  forallb Py.is_byteb v = false -> Py.set_slice l i j v = inl Py.ValueError.
Proof. intros H. unfold Py.set_slice. rewrite H. reflexivity. Qed.

Lemma two_bytes_ok v :
  (0 <=? v) && (v <? 65536) = true ->
  0 <= v < 65536 /\ forallb Py.is_byteb [v / 256; v mod 256] = true.
Proof.
intros H. apply andb_true_iff in H as [H1 H2].
apply Z.leb_le in H1. apply Z.ltb_lt in H2.
split; [lia|]. destruct (two_bytes_range v) as [A B]; [lia|].
cbn [forallb]. rewrite !is_byteb_true by assumption. reflexivity.
Qed.

(** Whenever [create_packet] returns, what it returns is the header
    followed by the encoded text, and every value it stored fitted its
    field. *)
Lemma create_packet_inv t kind lang p :
  Server.create_packet t kind lang = inr p ->
  exists text enc,
    Server.text_of t kind lang = inr text /\
    Py.utf8_encode text = inr enc /\
    Py.len enc < 256 /\
    0 <= lang < 65536 /\ 0 <= year t < 65536 /\
    0 <= month t < 256 /\ 0 <= day t < 256 /\
    0 <= hour t < 256 /\ 0 <= minute t < 256 /\
    p = Wire.response_layout lang t enc.
Proof.
intros H.
assert (H' := H). unfold Server.create_packet in H'.
destruct (Server.text_of t kind lang) as [e|text] eqn:Et; [discriminate H'|].
cbn [Py.bind] in H'.
destruct (Py.utf8_encode text) as [e|enc] eqn:Ee; [discriminate H'|].
cbn [Py.bind] in H'. unfold Py.len at 1 in H'. rewrite bytearray_13 in H'.
change (Py.to_bytes2_big Server.MAGIC_NUMBER)
  with (@inr Py.Exc _ [0x49; 0x7E]) in H'.
change (Py.to_bytes2_big Server.DT_RES) with (@inr Py.Exc _ [0; 2]) in H'.
cbn [Py.bind] in H'.
rewrite set_slice_ok in H' by reflexivity.
cbn [Py.bind firstn skipn app Nat.max] in H'.
rewrite set_slice_ok in H' by reflexivity.
cbn [Py.bind firstn skipn app Nat.max] in H'.
unfold Py.to_bytes2_big at 1 in H'.
destruct ((0 <=? lang) && (lang <? 65536)) eqn:Cl; [|discriminate H'].
destruct (two_bytes_ok lang Cl) as [Rl Bl].
cbn [Py.bind Py.ret] in H'. rewrite set_slice_ok in H' by exact Bl.
cbn [Py.bind firstn skipn app Nat.max] in H'.
unfold Py.to_bytes2_big at 1 in H'.
destruct ((0 <=? year t) && (year t <? 65536)) eqn:Cy; [|discriminate H'].
destruct (two_bytes_ok (year t) Cy) as [Ry By].
cbn [Py.bind Py.ret] in H'. rewrite set_slice_ok in H' by exact By.
cbn [Py.bind firstn skipn app Nat.max] in H'.
destruct (forallb Py.is_byteb [month t; day t; hour t; minute t]) eqn:Cb.
2: { rewrite set_slice_bad in H' by exact Cb. discriminate H'. }
rewrite set_slice_ok in H' by exact Cb.
cbn [Py.bind firstn skipn app Nat.max] in H'.
unfold Py.set_index in H'.
destruct (Py.is_byteb (Py.len enc)) eqn:Cn; [|discriminate H'].
cbn [forallb] in Cb.
apply andb_true_iff in Cb as [C1 Cb]. apply andb_true_iff in Cb as [C2 Cb].
apply andb_true_iff in Cb as [C3 Cb]. apply andb_true_iff in Cb as [C4 _].
apply is_byteb_range in C1, C2, C3, C4, Cn.
exists text, enc. repeat split; try lia; try assumption.
assert (L := create_packet_layout t kind lang text enc Et Ee
               (utf8_encode_bytes _ _ Ee)).
rewrite L in H by lia.
apply inr_inj in H. subst p. reflexivity.
Qed.

End EncoderInversion.

Section LayoutFacts.

Variables (lang : Z) (t : DateTime) (enc : list Z).

Let p := Wire.response_layout lang t enc.

Lemma layout_len : Py.len p = 13 + Py.len enc.
Proof. unfold p, Wire.response_layout. rewrite len_app. reflexivity. Qed.

Lemma layout_text : skipn 13 p = enc.
Proof. reflexivity. Qed.

Lemma layout_values :
  Spec.value Spec.MagicNumber p = 0x497E /\
  Spec.value Spec.PacketType p = 2 /\
  Spec.value Spec.LanguageCode p = lang /\
  Spec.value Spec.Year p = year t /\
  Spec.value Spec.Month p = month t /\
  Spec.value Spec.Day p = day t /\
  Spec.value Spec.Hour p = hour t /\
  Spec.value Spec.Minute p = minute t /\
  Spec.value Spec.TextLength p = Py.len enc.
Proof.
unfold Spec.value, Spec.u16, Spec.u8, p, Wire.response_layout.
cbn [nth app]. rewrite !two_bytes_value. repeat split.
Qed.

Lemma layout_framing_in_range :
  Spec.in_range Spec.MagicNumber p = true /\
  Spec.in_range Spec.PacketType p = true /\
  Spec.in_range Spec.TextLength p = true.
Proof.
destruct layout_values as (V0 & V1 & _ & _ & _ & _ & _ & _ & V8).
unfold Spec.in_range. rewrite V0, V1, V8, layout_len.
repeat split. apply Z.eqb_refl.
Qed.

End LayoutFacts.

(** Whatever the server's encoder returns reads back as what went in: the
    packet has the magic number and packet type 2, its language, year,
    month, day, hour and minute fields hold the values given, its length
    byte counts the bytes after the header, those bytes decode to the text
    that was encoded, and every item is a byte. *)
Theorem created_packet_reads_back
    (t : DateTime) (kind lang : Z) (p : list Z) :
  Server.create_packet t kind lang = inr p ->
  exists text,
    Server.text_of t kind lang = inr text /\
    Py.utf8_decode (skipn 13 p) = inr text /\
    Client.extract p =
      inr (Client.mkFields 0x497E 2 lang (year t) (month t) (day t)
             (hour t) (minute t) (Py.len p - 13)) /\
    0 <= Py.len p - 13 < 256 /\
    forallb Py.is_byteb p = true.
Proof.
intros H.
destruct (create_packet_inv t kind lang p H)
  as (text & enc & Et & Ee & Hn & Hl & Hy & Hm & Hd & Hh & Hmi & ->).
pose proof (layout_len lang t enc) as L.
pose proof (len_nonneg enc) as Hn0.
destruct (layout_values lang t enc)
  as (V0 & V1 & V2 & V3 & V4 & V5 & V6 & V7 & V8).
unfold Spec.value in *.
exists text. split; [exact Et|]. split; [|split; [|split]].
- rewrite layout_text. apply utf8_round_trip, Ee.
- rewrite extract_fields by lia.
  rewrite V0, V1, V2, V3, V4, V5, V6, V7, V8, L.
  replace (13 + Py.len enc - 13) with (Py.len enc) by lia. reflexivity.
- lia.
- unfold Wire.response_layout. rewrite forallb_app.
  destruct (two_bytes_range lang Hl). destruct (two_bytes_range (year t) Hy).
  cbn [forallb]. rewrite !is_byteb_true by lia.
  rewrite (utf8_encode_bytes _ _ Ee). reflexivity.
Qed.

Lemma created_packet_reads_back_witness :
  exists text,
    Server.text_of (mkDateTime 2500 8 21 9 5) 7 3 = inr text /\
    Py.utf8_decode (skipn 13 [0x49; 0x7E; 0; 2; 0; 3; 9; 196; 8; 21; 9; 5; 0])
      = inr text /\
    Client.extract [0x49; 0x7E; 0; 2; 0; 3; 9; 196; 8; 21; 9; 5; 0] =
      inr (Client.mkFields 0x497E 2 3 2500 8 21 9 5 0) /\
    0 <= 0 < 256 /\
    forallb Py.is_byteb [0x49; 0x7E; 0; 2; 0; 3; 9; 196; 8; 21; 9; 5; 0]
      = true.
Proof.
apply (created_packet_reads_back (mkDateTime 2500 8 21 9 5) 7 3
         [0x49; 0x7E; 0; 2; 0; 3; 9; 196; 8; 21; 9; 5; 0]).
reflexivity.
Defined.

(** A packet the server's encoder returned is never refused by the client
    for its framing or its encoding: the client accepts it, or refuses it
    with the message of the language code, year, month, day, hour or
    minute. *)
Theorem created_packet_refused_only_for_values
    (t : DateTime) (kind lang : Z) (p : list Z) :
  Server.create_packet t kind lang = inr p ->
  Spec.accepted (Client.process_packet p) \/
  exists fld,
    In fld Wire.value_fields /\
    Client.process_packet p =
      ([Client.Print (Client.message (Spec.reason fld))], IO.SysExit).
Proof.
intros H.
destruct (create_packet_inv t kind lang p H)
  as (text & enc & Et & Ee & Hn & Hl & Hy & Hm & Hd & Hh & Hmi & ->).
pose proof (layout_len lang t enc) as L.
pose proof (len_nonneg enc) as Hn0.
destruct (layout_framing_in_range lang t enc) as (F0 & F1 & F8).
rewrite process_packet_checks by lia.
cbn [find Spec.check_order]. rewrite F0, F1, F8. cbn [negb].
unfold Wire.value_fields.
repeat match goal with
       | |- context [negb (Spec.in_range ?f ?q)] =>
         destruct (Spec.in_range f q); cbn [negb];
         [|right; eexists; split; [|reflexivity]; cbn [In]; tauto]
       end.
left. unfold Spec.accepted, Spec.render.
rewrite layout_text, (utf8_round_trip _ _ Ee). reflexivity.
Qed.

Lemma created_packet_refused_only_for_values_witness :
  Spec.accepted
    (Client.process_packet [0x49; 0x7E; 0; 2; 0; 3; 9; 196; 8; 21; 9; 5; 0])
  \/
  exists fld,
    In fld Wire.value_fields /\
    Client.process_packet [0x49; 0x7E; 0; 2; 0; 3; 9; 196; 8; 21; 9; 5; 0] =
      ([Client.Print (Client.message (Spec.reason fld))], IO.SysExit).
Proof.
apply (created_packet_refused_only_for_values (mkDateTime 2500 8 21 9 5) 7 3
         [0x49; 0x7E; 0; 2; 0; 3; 9; 196; 8; 21; 9; 5; 0]).
reflexivity.
Defined.

Section ClockFacts.

Lemma str_of_int_len_4_wide z :
  0 <= z < 10000 -> Py.len (Py.str_of_int z) <= 4.
Proof.
intros H. apply Z.leb_le.
destruct (Z.ltb_spec z 2500); [|destruct (Z.ltb_spec z 5000);
  [|destruct (Z.ltb_spec z 7500)]].
- apply (range_forall (fun z => Py.len (Py.str_of_int z) <=? 4) 0 2500);
    [vm_compute; reflexivity | lia].
- apply (range_forall (fun z => Py.len (Py.str_of_int z) <=? 4) 2500 2500);
    [vm_compute; reflexivity | lia].
- apply (range_forall (fun z => Py.len (Py.str_of_int z) <=? 4) 5000 2500);
    [vm_compute; reflexivity | lia].
- apply (range_forall (fun z => Py.len (Py.str_of_int z) <=? 4) 7500 2500);
    [vm_compute; reflexivity | lia].
Qed.

(** On a clock reading the text is built, short, and encodable, whatever
    the request type. *)
Lemma text_of_on_clock kind lang t :
  In lang [1; 2; 3] -> Wire.clock_ok t ->
  exists text,
    Server.text_of t kind lang = inr text /\
    forallb Py.scalarb text = true /\
    Py.len text <= 63.
Proof.
intros Hl (Hy & Hm & Hd & Hh & Hmi).
destruct (Z.eq_dec kind 1) as [->|N1]; [|destruct (Z.eq_dec kind 2) as [->|N2]].
3: { exists []. split; [apply text_of_other; assumption|].
     split; [reflexivity|]. unfold Py.len. cbn [List.length]. lia. }
all: eexists; split; [apply text_of_localized; cbn [In]; tauto|].
all: destruct (month_name_facts lang (month t) Hl Hm) as [Ns Nl].
all: pose proof (str_of_int_len_2 (day t)) as Ld.
all: pose proof (str_of_int_len_4_wide (year t)) as Ly.
all: pose proof (format_0d_2_len (hour t)) as Lh.
all: pose proof (format_0d_2_len (minute t)) as Lmi.
all: unfold Spec.localized_text, Spec.date_text, Spec.time_text.
all: cbn [Z.eqb Pos.eqb].
all: cbn [In] in Hl; destruct Hl as [<-|[<-|[<-|[]]]]; cbn [Z.eqb Pos.eqb];
  split;
  rewrite ?forallb_app, ?len_app, ?Ns, ?str_of_int_scalar, ?format_0d_scalar;
  try reflexivity;
  repeat match goal with
         | |- context [Py.len (Py.lit ?s)] =>
           let n := eval vm_compute in (Py.len (Py.lit s)) in
           change (Py.len (Py.lit s)) with n
         end;
  lia.
Qed.

End ClockFacts.

(** On every clock reading and for each of the three languages the
    encoder returns a packet, whatever the request type; the client accepts
    that packet when the year is below 2100 and refuses it for its year
    from 2100 on. *)
Theorem response_verdict_by_year (t : DateTime) (kind lang : Z) :
  Wire.clock_ok t -> In lang [1; 2; 3] ->
  exists p,
    Server.create_packet t kind lang = inr p /\
    (year t < 2100 -> Spec.accepted (Client.process_packet p)) /\
    (2100 <= year t ->
     Client.process_packet p =
       ([Client.Print (Client.message Client.InvalidYear)], IO.SysExit)).
Proof.
intros Hc Hl.
destruct (text_of_on_clock kind lang t Hl Hc) as (text & Et & Ts & Tl).
destruct Hc as (Hy & Hm & Hd & Hh & Hmi).
destruct (utf8_encode_ok _ Ts) as (enc & Ee & Eb & En).
assert (Hlang : 0 <= lang < 65536) by (cbn [In] in Hl; lia).
pose proof (len_nonneg enc) as Hn0.
pose proof (create_packet_layout t kind lang text enc Et Ee Eb) as E.
exists (Wire.response_layout lang t enc).
split; [apply E; lia|].
pose proof (layout_len lang t enc) as L.
destruct (layout_framing_in_range lang t enc) as (F0 & F1 & F8).
destruct (layout_values lang t enc)
  as (_ & _ & V2 & V3 & V4 & V5 & V6 & V7 & _).
assert (R : forall g, g <> Spec.Year ->
            Spec.in_range g (Wire.response_layout lang t enc) = true).
{ intros g Hg. destruct g; try assumption; try congruence;
    unfold Spec.in_range; rewrite ?V2, ?V4, ?V5, ?V6, ?V7.
  - cbn [In] in Hl. destruct Hl as [<-|[<-|[<-|[]]]]; reflexivity.
  - tests. reflexivity.
  - tests. reflexivity.
  - tests. reflexivity.
  - tests. reflexivity. }
split.
- intros Hlt. unfold Spec.accepted. rewrite process_packet_checks by lia.
  rewrite find_all_in_range.
  + unfold Spec.render. rewrite layout_text, (utf8_round_trip _ _ Ee).
    reflexivity.
  + intros g. destruct (Spec.Field_eq_dec g Spec.Year) as [->|Hg].
    * unfold Spec.in_range. rewrite V3. apply Z.ltb_lt. exact Hlt.
    * apply R, Hg.
- intros Hge. rewrite process_packet_checks by lia.
  rewrite (find_first_out_of_range Spec.Year _ R).
  + reflexivity.
  + unfold Spec.in_range. rewrite V3. apply Z.ltb_ge. exact Hge.
Qed.

Lemma response_verdict_by_year_witness :
  exists p,
    Server.create_packet (mkDateTime 2100 1 1 0 0) 2 1 = inr p /\
    (2100 < 2100 -> Spec.accepted (Client.process_packet p)) /\
    (2100 <= 2100 ->
     Client.process_packet p =
       ([Client.Print (Client.message Client.InvalidYear)], IO.SysExit)).
Proof.
apply (response_verdict_by_year (mkDateTime 2100 1 1 0 0) 2 1).
- unfold Wire.clock_ok. cbn [year month day hour minute]. lia.
- cbn [In]. tauto.
Defined.

(** A date or time request for a language code other than 1, 2 and 3 makes
    the encoder fail with the [KeyError] of the table lookup. *)
Theorem unknown_language_raises_key_error (t : DateTime) (kind lang : Z) :
  In kind [1; 2] -> ~ In lang [1; 2; 3] ->
  Server.create_packet t kind lang = inl Py.KeyError.
Proof.
intros Hk Hl. cbn [In] in Hl.
assert (E : dict_get Server.STRINGS lang = inl Py.KeyError).
{ unfold dict_get, Server.STRINGS. cbn [dict_find].
  replace (1 =? lang) with false by (symmetry; apply Z.eqb_neq; tauto).
  replace (2 =? lang) with false by (symmetry; apply Z.eqb_neq; tauto).
  replace (3 =? lang) with false by (symmetry; apply Z.eqb_neq; tauto).
  reflexivity. }
unfold Server.create_packet, Server.text_of.
cbn [In] in Hk. destruct Hk as [<-|[<-|[]]];
  cbn [Z.eqb Pos.eqb Server.REQ_DATE Server.REQ_TIME];
  unfold Server.REQ_DATE, Server.REQ_TIME; cbn [Z.eqb Pos.eqb];
  rewrite E; reflexivity.
Qed.

Lemma unknown_language_raises_key_error_witness :
  Server.create_packet (mkDateTime 2018 8 21 9 5) 1 4 = inl Py.KeyError.
Proof.
apply (unknown_language_raises_key_error (mkDateTime 2018 8 21 9 5) 1 4).
- cbn [In]. tauto.
- cbn [In]. lia.
Defined.

(** The response to a request type other than date and time, on a clock
    reading before the year 2100, is a bare 13-byte header, which the
    client accepts and shows with an empty text. *)
Theorem unknown_kind_response_accepted (t : DateTime) (kind lang : Z) :
  kind <> 1 -> kind <> 2 ->
  Wire.clock_ok t -> year t < 2100 -> In lang [1; 2; 3] ->
  exists p,
    Server.create_packet t kind lang = inr p /\
    Py.len p = 13 /\
    Client.process_packet p =
      ([Client.Print (Spec.type_line 0x497E 2 lang);
        Client.Print (Spec.date_line (day t) (month t) (year t) (hour t)
                        (minute t));
        Client.Print (Py.lit "[DATA] -- Text: ")], IO.Returned tt).
Proof.
intros N1 N2 (Hy0 & Hm & Hd & Hh & Hmi) Hy Hl.
assert (Hlang : 0 <= lang < 65536) by (cbn [In] in Hl; lia).
exists (Wire.response_layout lang t []).
pose proof (layout_len lang t []) as L.
destruct (layout_values lang t [])
  as (V0 & V1 & V2 & V3 & V4 & V5 & V6 & V7 & V8).
split; [|split; [exact L|]].
- apply unknown_kind_empty_text; (assumption || lia).
- rewrite process_packet_checks by (rewrite L; reflexivity).
  rewrite find_all_in_range.
  + unfold Spec.render. unfold Spec.value in *.
    rewrite V0, V1, V2, V3, V4, V5, V6, V7. reflexivity.
  + intros g. unfold Spec.in_range.
    destruct g; rewrite ?V0, ?V1, ?V2, ?V3, ?V4, ?V5, ?V6, ?V7, ?V8, ?L;
      try reflexivity; tests; try reflexivity.
    cbn [In] in Hl. destruct Hl as [<-|[<-|[<-|[]]]]; reflexivity.
Qed.

Lemma unknown_kind_response_accepted_witness :
  exists p,
    Server.create_packet (mkDateTime 2018 8 21 9 5) 7 2 = inr p /\
    Py.len p = 13 /\
    Client.process_packet p =
      ([Client.Print (Spec.type_line 0x497E 2 2);
        Client.Print (Spec.date_line 21 8 2018 9 5);
        Client.Print (Py.lit "[DATA] -- Text: ")], IO.Returned tt).
Proof.
apply (unknown_kind_response_accepted (mkDateTime 2018 8 21 9 5) 7 2);
  unfold Wire.clock_ok; cbn [year month day hour minute In]; (lia || tauto).
Defined.

(** ** Further properties of the server's loop *)

Section LoopFacts.


Lemma server_sent_app a b :
  Wire.server_sent (a ++ b) = Wire.server_sent a ++ Wire.server_sent b.
Proof. unfold Wire.server_sent. apply flat_map_app. Qed.

Lemma subseq_nil_l {A} (b : list A) : Wire.Subseq [] b.
Proof.
induction b as [|x b IH]; [apply Wire.Subseq_nil | apply Wire.Subseq_skip, IH].
Qed.

Lemma subseq_app {A} (a b c d : list A) :
  Wire.Subseq a b -> Wire.Subseq c d -> Wire.Subseq (a ++ c) (b ++ d).
Proof.
intros Hab Hcd.
induction Hab as [|x a b Hab IH|x a b Hab IH]; cbn [app].
- exact Hcd.
- apply Wire.Subseq_skip, IH.
- apply Wire.Subseq_take, IH.
Qed.

Lemma subseq_length {A} (a b : list A) :
  Wire.Subseq a b -> (List.length a <= List.length b)%nat.
Proof. induction 1; cbn [List.length]; lia. Qed.

(** What one iteration sends: nothing, or one datagram, from the socket at
    the head of the readable list to the sender of the datagram read. *)
Lemma iteration_sent languages tick :
  Wire.server_sent (IO.trace (Server.iteration languages tick)) = [] \/
  exists sock others data,
    Server.readable tick = sock :: others /\
    Wire.server_sent (IO.trace (Server.iteration languages tick)) =
      [(Server.sock_port sock, data, Server.sender sock)].
Proof.
unfold Server.iteration.
destruct (Server.readable tick) as [|sock others] eqn:R; [left; reflexivity|].
unfold Server.process_packet.
destruct (negb (Py.len (Server.received_packet sock) =? 6));
  [left; reflexivity|].
destruct (negb (Py.from_bytes_big (Py.slice (Server.received_packet sock) 0 2)
                =? Server.MAGIC_NUMBER)); [left; reflexivity|].
destruct (negb (Py.from_bytes_big (Py.slice (Server.received_packet sock) 2 4)
                =? Server.DT_REQ)); [left; reflexivity|].
cbn [IO.bind IO.ret app Server.truthy].
destruct (negb (Py.from_bytes_big (Py.slice (Server.received_packet sock) 5 6)
                =? 0)); [|left; reflexivity].
destruct (dict_get languages (Server.sock_port sock)) as [e|lang];
  cbn [IO.lift IO.bind IO.emit app]; [left; reflexivity|].
destruct (Server.create_packet _ _ lang) as [e|data];
  cbn [IO.lift IO.bind IO.emit app]; [left; reflexivity|].
right. exists sock, others, data. split; reflexivity.
Qed.

Lemma iteration_never_exits languages tick :
  IO.outcome (Server.iteration languages tick) <> IO.SysExit.
Proof.
unfold Server.iteration.
destruct (Server.readable tick) as [|sock others]; [discriminate|].
unfold Server.process_packet.
destruct (negb (Py.len (Server.received_packet sock) =? 6));
  [discriminate|].
destruct (negb (Py.from_bytes_big (Py.slice (Server.received_packet sock) 0 2)
                =? Server.MAGIC_NUMBER)); [discriminate|].
destruct (negb (Py.from_bytes_big (Py.slice (Server.received_packet sock) 2 4)
                =? Server.DT_REQ)); [discriminate|].
cbn [IO.bind IO.ret app Server.truthy].
destruct (negb (Py.from_bytes_big (Py.slice (Server.received_packet sock) 5 6)
                =? 0)); [|discriminate].
destruct (dict_get languages (Server.sock_port sock)) as [e|lang];
  cbn [IO.lift IO.bind IO.emit app]; [discriminate|].
destruct (Server.create_packet _ _ lang) as [e|data];
  cbn [IO.lift IO.bind IO.emit app]; discriminate.
Qed.

Lemma listen_cons languages tick rest :
  Server.listen languages (tick :: rest) =
  (Server.iteration languages tick >> Server.listen languages rest).
Proof. reflexivity. Qed.

End LoopFacts.

(** The server sends only in answer to what it read: the datagrams it
    sends over a run go, in order, to senders of the datagrams at the head
    of the successive returns of [select], each on the port that datagram
    came in on; so it sends at most one datagram per return of
    [select]. *)
Theorem server_answers_only_arrivals
    (languages : Dict Z) (ticks : list Server.Tick) :
  let sent := Wire.server_sent (IO.trace (Server.listen languages ticks)) in
  Wire.Subseq (map Wire.route sent) (Wire.arrivals ticks) /\
  (List.length sent <= List.length ticks)%nat.
Proof.
cbv zeta.
induction ticks as [|tick rest [IH1 IH2]].
- split; [constructor | cbn; lia].
- rewrite listen_cons.
  assert (A : Wire.arrivals (tick :: rest) =
              Wire.arrivals [tick] ++ Wire.arrivals rest).
  { unfold Wire.arrivals. cbn [flat_map]. rewrite app_nil_r. reflexivity. }
  assert (S1 : Wire.Subseq
                 (map Wire.route
                    (Wire.server_sent
                       (IO.trace (Server.iteration languages tick))))
                 (Wire.arrivals [tick]) /\
               (List.length
                  (Wire.server_sent
                     (IO.trace (Server.iteration languages tick))) <= 1)%nat).
  { destruct (iteration_sent languages tick)
      as [E | (sock & others & data & R & E)]; rewrite E.
    - split; [apply subseq_nil_l | cbn; lia].
    - unfold Wire.arrivals. cbn [flat_map map Wire.route]. rewrite R.
      split; [apply Wire.Subseq_take, Wire.Subseq_nil | cbn; lia]. }
  destruct S1 as [S1 S2]. rewrite A.
  destruct (Server.iteration languages tick) as [tr [[]| |e]] eqn:I.
  + destruct (Server.listen languages rest) as [tr' o].
    cbn [IO.bind IO.trace fst] in *. rewrite server_sent_app, map_app.
    split; [apply subseq_app; assumption|].
    rewrite length_app. cbn [List.length]. lia.
  + cbn [IO.bind IO.trace fst] in *.
    rewrite <- (app_nil_r (map _ _)).
    split; [apply subseq_app; [assumption | apply subseq_nil_l]|].
    cbn [List.length]. lia.
  + cbn [IO.bind IO.trace fst] in *.
    rewrite <- (app_nil_r (map _ _)).
    split; [apply subseq_app; [assumption | apply subseq_nil_l]|].
    cbn [List.length]. lia.
Qed.


Section DispatchFacts.

Variables eng_port mao_port ger_port : Z.

Let languages : Dict Z := [(eng_port, 1); (mao_port, 2); (ger_port, 3)].





End DispatchFacts.



(** ** The exchange between the two programs *)

Section ExchangeComposition.


End ExchangeComposition.

(** The server reads the client's request as the client meant it: the
    packet built for ["date"] decodes to 1, the one for ["time"] to 2 and
    the one for any other string to 0, each without an alert. *)
Theorem request_round_trip (req_type : list Z) (addr : Addr) :
  exists tx,
    Client.packet_create req_type = inr tx /\
    Server.process_packet tx addr =
      ([], IO.Returned
             (Some (if Client.str_eqb req_type (Py.lit "date") then 1
                    else if Client.str_eqb req_type (Py.lit "time") then 2
                    else 0))).
Proof.
destruct (list_eq_dec Z.eq_dec req_type (Py.lit "date")) as [->|Hd].
{ eexists. split; [apply packet_create_date | reflexivity]. }
destruct (list_eq_dec Z.eq_dec req_type (Py.lit "time")) as [->|Ht].
{ eexists. split; [apply packet_create_time | reflexivity]. }
eexists. split; [apply packet_create_other; assumption|].
rewrite (str_eqb_false _ _ Hd), (str_eqb_false _ _ Ht). reflexivity.
Qed.



(** ** The client's socket and the argument checks *)


(** The server's [check_arguments] returns the three ports exactly when
    each lies in 1024..64000; otherwise it prints one line, naming the
    first port out of range in the order English, Maori, German, and
    exits. *)
Theorem server_check_arguments_verdict (en mi ge : Z) :
  let ok v := 1024 <= v <= 64000 in
  let run := ServerArgs.check_arguments en mi ge in
  (ok en /\ ok mi /\ ok ge -> run = ([], IO.Returned (en, mi, ge))) /\
  (~ ok en ->
   run = ([ServerArgs.PrintNotInRange ServerArgs.EN_Port], IO.SysExit)) /\
  (ok en -> ~ ok mi ->
   run = ([ServerArgs.PrintNotInRange ServerArgs.MI_Port], IO.SysExit)) /\
  (ok en -> ok mi -> ~ ok ge ->
   run = ([ServerArgs.PrintNotInRange ServerArgs.GE_Port], IO.SysExit)).
Proof.
cbv zeta. unfold ServerArgs.check_arguments, ServerArgs.in_range.
repeat split; intros;
  destruct (Z.leb_spec 1024 en); destruct (Z.ltb_spec en 64001);
  destruct (Z.leb_spec 1024 mi); destruct (Z.ltb_spec mi 64001);
  destruct (Z.leb_spec 1024 ge); destruct (Z.ltb_spec ge 64001);
  first [reflexivity | exfalso; lia].
Qed.

(** The client's [check_arguments] returns exactly when the request type
    is ["date"] or ["time"], the address resolves and the port lies in
    1024..64000, the range the server checks its own ports against; it then
    returns the type, the resolved address and the port, and the request
    built from that type has kind 1 or 2, never 0. *)
Theorem client_check_arguments_verdict
    (type : list Z) (resolved : option (list Z)) (port : Z)
    (r : list Z * list Z * Z) :
  IO.outcome (ClientArgs.check_arguments type resolved port) = IO.Returned r
  <->
  (type = Py.lit "date" \/ type = Py.lit "time") /\
  (exists host_addr, resolved = Some host_addr /\ r = (type, host_addr, port))
  /\ ServerArgs.in_range port 1024 64001 = true /\
  exists tx, Client.packet_create type = inr tx /\
             (Spec.request_kind tx = 1 \/ Spec.request_kind tx = 2).
Proof.
unfold ClientArgs.check_arguments, ClientArgs.choices, ServerArgs.in_range.
cbn [existsb]. rewrite orb_false_r.
split.
- destruct (Client.str_eqb type (Py.lit "date")) eqn:Sd;
    [|destruct (Client.str_eqb type (Py.lit "time")) eqn:St];
    cbn [orb negb IO.when]; try discriminate.
  all: destruct resolved as [host_addr|]; cbn [IO.bind IO.ret IO.emit
         IO.sys_exit app IO.outcome snd]; try discriminate.
  all: destruct (Z.ltb_spec port 1024); cbn [orb IO.when IO.bind IO.ret
         IO.emit IO.sys_exit app IO.outcome snd]; try discriminate.
  all: rewrite Z.gtb_ltb; destruct (Z.ltb_spec 64000 port);
    cbn [orb IO.when IO.bind IO.ret IO.emit IO.sys_exit app IO.outcome snd];
    try discriminate.
  all: intros HR; injection HR as <-.
  + assert (type = Py.lit "date")
      by (unfold Client.str_eqb in Sd;
          destruct (list_eq_dec Z.eq_dec type (Py.lit "date"));
          [assumption|discriminate]).
    subst type. split; [tauto|]. split; [eauto|]. split; [tests; reflexivity|].
    eexists. split; [apply packet_create_date|]. left. reflexivity.
  + assert (type = Py.lit "time")
      by (unfold Client.str_eqb in St;
          destruct (list_eq_dec Z.eq_dec type (Py.lit "time"));
          [assumption|discriminate]).
    subst type. split; [tauto|]. split; [eauto|]. split; [tests; reflexivity|].
    eexists. split; [apply packet_create_time|]. right. reflexivity.
- intros (Ht & (host_addr & -> & ->) & Hp & _).
  apply andb_true_iff in Hp as [Hp1 Hp2].
  apply Z.leb_le in Hp1. apply Z.ltb_lt in Hp2.
  assert (C : Client.str_eqb type (Py.lit "date")
              || Client.str_eqb type (Py.lit "time") = true)
    by (destruct Ht as [->| ->]; rewrite str_eqb_refl;
        [reflexivity | apply orb_true_r]).
  rewrite C. rewrite Z.gtb_ltb.
  replace (port <? 1024) with false by (symmetry; apply Z.ltb_ge; lia).
  replace (64000 <? port) with false by (symmetry; apply Z.ltb_ge; lia).
  reflexivity.
Qed.

